(** * yolov10cpp: the post-processing, pre-processing and entry point of
    [src/main.cpp], embedded in Rocq.

    Numbers are modelled as the program has them:
    - [int] is a 32-bit two's complement integer, carried as a [Z] with the
      range test and the wrap-around of a narrowing conversion written out;
    - [float] is IEEE-754 binary32, carried as a [spec_float] with the
      operations of the Standard Library's [SpecFloat] at precision 24 and
      maximal exponent 128 (round to nearest, ties to even);
    - undefined behaviour of the C++ abstract machine (signed overflow, a
      float-to-int conversion whose truncated value does not fit, an
      unchecked [operator[]] out of range) is an outcome of its own.

    Expressions of type [float] are evaluated in binary32, as compilers do
    on x86-64 and AArch64.  The calls into OpenCV, ONNX Runtime and the C++
    library are fields of a record, [World]; what the program hands to them
    and prints is logged as a list of events. *)

From Stdlib Require Import ZArith List String Bool Lia Sorted.
From Stdlib Require Import Floats.SpecFloat.
From Stdlib Require Import DecimalString.
From Stdlib Require Import QArith Qabs.
Import ListNotations.

Local Open Scope Z_scope.
#[local] Set Warnings "-notation-for-abbreviation".

(** ** Outcomes of a C++ call *)

Inductive outcome (A : Type) : Type :=
| Returns (a : A)          (* normal completion *)
| Throws (what : string)   (* an exception derived from std::exception *)
| Undefined.               (* undefined behaviour *)

Arguments Returns {A} a.
Arguments Throws {A} what.
Arguments Undefined {A}.

Definition bind {A B : Type} (c : outcome A) (k : A -> outcome B) : outcome B :=
  match c with
  | Returns a => k a
  | Throws w => Throws w
  | Undefined => Undefined
  end.

Declare Scope outcome_scope.
Delimit Scope outcome_scope with outcome.
Notation "x <- c ;; k" := (bind c (fun x => k))
  (at level 61, c at next level, right associativity) : outcome_scope.
Local Open Scope outcome_scope.

(** A partial primitive whose failure is undefined behaviour. *)
Definition defined {A : Type} (o : option A) : outcome A :=
  match o with
  | Some a => Returns a
  | None => Undefined
  end.

(** ** The C++ type [int] *)

Module Int32.

Definition min : Z := - 2 ^ 31.
Definition max : Z := 2 ^ 31 - 1.

Definition in_range (z : Z) : bool := (min <=? z) && (z <=? max).

(** Conversion of a wider integer ([size_t], [int64_t]) to [int]. *)
Definition wrap (z : Z) : Z := (z + 2 ^ 31) mod 2 ^ 32 - 2 ^ 31.

(** Signed arithmetic: a result out of range is undefined behaviour. *)
Definition checked (z : Z) : outcome Z :=
  if in_range z then Returns z else Undefined.

End Int32.

(** ** The C++ type [int64_t] *)

Module Int64.

Definition min : Z := - 2 ^ 63.
Definition max : Z := 2 ^ 63 - 1.

Definition in_range (z : Z) : bool := (min <=? z) && (z <=? max).

Definition checked (z : Z) : outcome Z :=
  if in_range z then Returns z else Undefined.

End Int64.

(** ** The C++ type [float] *)

Module Float32.

Definition prec : Z := 24.
Definition emax : Z := 128.

Definition float : Type := spec_float.

Definition mul : float -> float -> float := SFmul prec emax.
Definition div : float -> float -> float := SFdiv prec emax.
Definition sub : float -> float -> float := SFsub prec emax.

(** Integer-to-float conversion, as in the usual arithmetic conversions of
    [float * int]. *)
Definition of_int (z : Z) : float := binary_normalize prec emax z 0 false.

(** [a >= b]; false as soon as one side is a NaN. *)
Definition ge (a b : float) : bool :=
  match SFcompare a b with
  | Some Gt | Some Eq => true
  | _ => false
  end.

(** [a < b]; false as soon as one side is a NaN. *)
Definition lt (a b : float) : bool := SFltb a b.

(** The integral part of a float, rounding toward zero; infinities and
    NaN have none. *)
Definition trunc (f : float) : option Z :=
  match f with
  | S754_zero _ => Some 0
  | S754_finite s m e =>
      let mag := if 0 <=? e then Z.pos m * 2 ^ e else Z.pos m / 2 ^ (- e) in
      Some (cond_Zopp s mag)
  | S754_infinity _ | S754_nan => None
  end.

(** Float-to-int conversion ([static_cast<int>] or implicit): truncation;
    undefined when the truncated value is not representable. *)
Definition to_int (f : float) : option Z :=
  match trunc f with
  | Some z => if Int32.in_range z then Some z else None
  | None => None
  end.

(** The rational a finite float stands for. *)
Definition exact (f : float) : option Q :=
  match f with
  | S754_zero _ => Some (0 # 1)
  | S754_finite s m e =>
      Some (if 0 <=? e then inject_Z (cond_Zopp s (Z.pos m * 2 ^ e))
            else Qmake (cond_Zopp s (Z.pos m)) (Z.to_pos (2 ^ (- e))))
  | S754_infinity _ | S754_nan => None
  end.

(** [f] stands for the rational [n / d] up to a relative error of [2^-23],
    the machine epsilon of [float]: one unit in the last place, or less. *)
Definition near (f : float) (n : Z) (d : positive) : bool :=
  match exact f with
  | Some q => Qle_bool (Qabs (q - Qmake n d)) (Qabs (Qmake n d) * Qmake 1 (2 ^ 23))
  | None => false
  end.

(** The values of the format: mantissa and exponent in canonical form. *)
Definition valid (f : float) : bool := valid_binary prec emax f.

(** The sign bit of [f] is [s]; nothing is asked of a NaN. *)
Definition signed (s : bool) (f : float) : Prop :=
  match f with
  | S754_zero s' | S754_infinity s' | S754_finite s' _ _ => s' = s
  | S754_nan => True
  end.

(** The float nearest to the decimal [n / d], for literals and test data. *)
Definition ratio (n d : Z) : float := div (of_int n) (of_int d).

End Float32.

Definition float : Type := Float32.float.

(** ** The class-name table *)

Definition CLASS_NAMES : list string :=
  [ "person"; "bicycle"; "car"; "motorcycle"; "airplane"; "bus"; "train"; "truck"; "boat"; "traffic light";
    "fire hydrant"; "stop sign"; "parking meter"; "bench"; "bird"; "cat"; "dog"; "horse"; "sheep"; "cow";
    "elephant"; "bear"; "zebra"; "giraffe"; "backpack"; "umbrella"; "handbag"; "tie"; "suitcase"; "frisbee";
    "skis"; "snowboard"; "sports ball"; "kite"; "baseball bat"; "baseball glove"; "skateboard"; "surfboard";
    "tennis racket"; "bottle"; "wine glass"; "cup"; "fork"; "knife"; "spoon"; "bowl"; "banana"; "apple";
    "sandwich"; "orange"; "broccoli"; "carrot"; "hot dog"; "pizza"; "donut"; "cake"; "chair"; "couch";
    "potted plant"; "bed"; "dining table"; "toilet"; "tv"; "laptop"; "mouse"; "remote"; "keyboard";
    "cell phone"; "microwave"; "oven"; "toaster"; "sink"; "refrigerator"; "book"; "clock"; "vase";
    "scissors"; "teddy bear"; "hair drier"; "toothbrush" ]%string.

(** ** Detections *)

(** [cv::Rect]: four [int] fields, stored as given. *)
Record Rect : Type := mkRect { x : Z; y : Z; width : Z; height : Z }.

Record Detection : Type := mkDetection {
  confidence : float;
  bbox : Rect;
  class_id : Z;
  class_name : string
}.

(** ** [std::vector::operator[]]: unchecked, undefined out of range.  The
    index is converted to [size_t], so a negative [int] is out of range too. *)
Definition vec_at {A : Type} (v : list A) (idx : Z) : outcome A :=
  if idx <? 0 then Undefined else defined (nth_error v (Z.to_nat idx)).

(** ** filterDetections *)

Section FilterDetections.

Variable results : list float.
Variable confidence_threshold : float.
Variables img_width img_height orig_width orig_height : Z.

(** [results[i * 6 + k]], the index computed in [int]. *)
Definition field (i k : Z) : outcome float :=
  i6 <- Int32.checked (i * 6) ;;
  idx <- Int32.checked (i6 + k) ;;
  vec_at results idx.

(** [static_cast<int>(v * orig / img)]: both [int] operands are converted
    to [float], the product is taken first. *)
Definition rescale (v : float) (orig img : Z) : outcome Z :=
  defined (Float32.to_int
    (Float32.div (Float32.mul v (Float32.of_int orig)) (Float32.of_int img))).

(** One iteration of the loop body, for index [i]. *)
Definition body (i : Z) (detections : list Detection) : outcome (list Detection) :=
  left <- field i 0 ;;
  top <- field i 1 ;;
  right <- field i 2 ;;
  bottom <- field i 3 ;;
  confidence <- field i 4 ;;
  cls <- field i 5 ;;
  class_id <- defined (Float32.to_int cls) ;;
  if Float32.ge confidence confidence_threshold then
    x <- rescale left orig_width img_width ;;
    y <- rescale top orig_height img_height ;;
    width <- rescale (Float32.sub right left) orig_width img_width ;;
    height <- rescale (Float32.sub bottom top) orig_height img_height ;;
    name <- vec_at CLASS_NAMES class_id ;;
    Returns (detections ++ [mkDetection confidence (mkRect x y width height) class_id name])
  else Returns detections.

(** [for (int i = 0; i < num_detections; ++i) body]: the bound is a constant,
    so the loop is [count] iterations from [i], [count] being what is left
    of [num_detections]; [i] stays below the bound and [++i] cannot
    overflow. *)
Fixpoint for_loop (count : nat) (i : Z) (detections : list Detection)
  : outcome (list Detection) :=
  match count with
  | O => Returns detections
  | S count' =>
      detections' <- body i detections ;;
      for_loop count' (i + 1) detections'
  end.

Definition num_detections : Z :=
  Int32.wrap (Z.of_nat (List.length results) / 6).

(** The loop runs for [i = 0 .. num_detections - 1], that is not at all
    when [num_detections <= 0]. *)
Definition filterDetections : outcome (list Detection) :=
  for_loop (Z.to_nat num_detections) 0 [].

End FilterDetections.

(** ** The buffer seen as records

    The view the specification takes of the raw buffer: consecutive groups of
    six floats, an incomplete last group left out.  [decode] is one record's
    share of the loop body; [process] replays the loop over the records. *)

Record RawRecord : Type := mkRaw {
  r_left : float; r_top : float; r_right : float; r_bottom : float;
  r_confidence : float; r_class : float
}.

Fixpoint records (results : list float) : list RawRecord :=
  match results with
  | a :: b :: c :: d :: e :: f :: rest => mkRaw a b c d e f :: records rest
  | _ => []
  end.

Section Decode.

Variable confidence_threshold : float.
Variables img_width img_height orig_width orig_height : Z.

Definition keeps (r : RawRecord) : bool :=
  Float32.ge (r_confidence r) confidence_threshold.

Definition decode (r : RawRecord) : outcome (option Detection) :=
  class_id <- defined (Float32.to_int (r_class r)) ;;
  if keeps r then
    x <- rescale (r_left r) orig_width img_width ;;
    y <- rescale (r_top r) orig_height img_height ;;
    width <- rescale (Float32.sub (r_right r) (r_left r)) orig_width img_width ;;
    height <- rescale (Float32.sub (r_bottom r) (r_top r)) orig_height img_height ;;
    name <- vec_at CLASS_NAMES class_id ;;
    Returns (Some (mkDetection (r_confidence r) (mkRect x y width height) class_id name))
  else Returns None.

Definition push (detections : list Detection) (o : option Detection) : list Detection :=
  match o with
  | Some d => detections ++ [d]
  | None => detections
  end.

Fixpoint process (rs : list RawRecord) (detections : list Detection)
  : outcome (list Detection) :=
  match rs with
  | [] => Returns detections
  | r :: rs' => o <- decode r ;; process rs' (push detections o)
  end.

(** The detection a kept record gives, field by field. *)
Definition yields (r : RawRecord) (d : Detection) : Prop :=
  confidence d = r_confidence r /\
  Float32.to_int (r_class r) = Some (class_id d) /\
  rescale (r_left r) orig_width img_width = Returns (x (bbox d)) /\
  rescale (r_top r) orig_height img_height = Returns (y (bbox d)) /\
  rescale (Float32.sub (r_right r) (r_left r)) orig_width img_width
    = Returns (width (bbox d)) /\
  rescale (Float32.sub (r_bottom r) (r_top r)) orig_height img_height
    = Returns (height (bbox d)) /\
  vec_at CLASS_NAMES (class_id d) = Returns (class_name d).

End Decode.

(** ** Images

    [cv::Mat] as [imread] gives it: 8-bit, three channels, the channel values
    of a pixel next to each other and the pixels row by row. *)

Record Mat : Type := mkMat { rows : Z; cols : Z; data : list Z }.

(** [Mat::empty()]. *)
Definition empty (m : Mat) : bool :=
  match data m with
  | [] => true
  | _ => false
  end.

(** [Mat::convertTo(dst, CV_32F, alpha)] on an 8-bit image: every channel
    value is converted to [float] and multiplied by [alpha], itself
    converted from [double] to [float]. *)
Definition convertTo (values : list Z) (alpha : float) : list float :=
  map (fun v => Float32.mul (Float32.of_int v) alpha) values.

(** The [double] quotient [1.0 / 255], converted to [float]. *)
Definition alpha_1_255 : float :=
  match SFdiv 53 1024 (binary_normalize 53 1024 1 0 false)
                      (binary_normalize 53 1024 255 0 false) with
  | S754_finite s m e => binary_round Float32.prec Float32.emax s m e
  | f => f
  end.

(** [cv::split]: plane [c] holds channel [c] of every pixel. *)
Fixpoint plane {A : Type} (c : nat) (interleaved : list A) : list A :=
  match interleaved with
  | c0 :: c1 :: c2 :: rest =>
      match c with
      | 0%nat => c0
      | 1%nat => c1
      | _ => c2
      end :: plane c rest
  | _ => []
  end.

Definition split {A : Type} (interleaved : list A) : list (list A) :=
  [plane 0 interleaved; plane 1 interleaved; plane 2 interleaved].

(** The value [convertTo] stores for the channel value [v] when the factor
    is [1.0 / 255]. *)
Definition normalize (v : Z) : float :=
  Float32.mul (Float32.of_int v) alpha_1_255.

(** Channel-major order, in the specification's words: all of channel 0,
    then all of channel 1, then all of channel 2. *)
Definition channel_major {A : Type} (interleaved : list A) : list A :=
  plane 0 interleaved ++ plane 1 interleaved ++ plane 2 interleaved.

(** The pixels of an image of one colour, [c0], [c1], [c2] being the values
    of its three channels. *)
Definition solid {A : Type} (c0 c1 c2 : A) (pixels : nat) : list A :=
  List.concat (repeat [c0; c1; c2] pixels).

(** The range [(float * )p, (float * )p + n) over a buffer: reading past the
    buffer is undefined. *)
Definition range {A : Type} (buffer : list A) (n : Z) : outcome (list A) :=
  if (0 <=? n) && (n <=? Z.of_nat (List.length buffer))
  then Returns (firstn (Z.to_nat n) buffer)
  else Undefined.

(** ** Drawing

    The image being annotated: the decoded pixels and the primitives drawn
    over them, in order. *)

Definition Scalar : Type := (Z * Z * Z)%type.

Inductive primitive : Type :=
| Outline (box : Rect) (color : Scalar) (thickness : Z)
| Filled (x1 y1 x2 y2 : Z) (color : Scalar)
| Text (label : string) (x y : Z) (color : Scalar).

Record Canvas : Type := mkCanvas { base : Mat; drawn : list primitive }.

Definition draw (c : Canvas) (p : primitive) : Canvas :=
  mkCanvas (base c) (drawn c ++ [p]).

(** ** The environment of a run

    What the program obtains from ONNX Runtime, OpenCV and the C++ library;
    none of it is code of this repository. *)

Record World : Type := mkWorld {
  Session : Type;
  (* Ort::Env's constructor and the two settings of Ort::SessionOptions *)
  create_env : outcome unit;
  (* Ort::Session's constructor *)
  create_session : string -> outcome Session;
  (* cv::imread: an empty Mat when the file cannot be decoded *)
  imread : string -> Mat;
  (* cv::resize to cv::Size(width, height) *)
  resize : Mat -> Z -> Z -> outcome Mat;
  (* input and output names, tensor creation, Session::Run and the copy of
     the output tensor *)
  session_run : Session -> list float -> list Z -> outcome (list float);
  (* cv::getTextSize at FONT_HERSHEY_SIMPLEX, 0.5, 1: width, height, baseLine *)
  getTextSize : string -> Z * Z * Z;
  (* std::to_string(float) and operator<<(float) *)
  to_string : float -> string;
  put_float : float -> string;
  (* cv::imwrite *)
  imwrite : string -> Canvas -> outcome bool
}.

(** What a run does that can be seen from outside, in order. *)
Inductive event : Type :=
| Cerr (text : string)
| Cout (text : string)
| SessionCreate (model_path : string)
| Imread (path : string)
| Resize (width height : Z)
| SessionRun (shape : list Z) (tensor : list float)
| Imwrite (path : string) (image : Canvas).

(** Computations that log events and end in an outcome. *)
Definition io (A : Type) : Type := list event -> list event * outcome A.

Definition ret {A : Type} (a : A) : io A := fun log => (log, Returns a).

Definition lift {A : Type} (o : outcome A) : io A := fun log => (log, o).

Definition emit (e : event) : io unit := fun log => (log ++ [e], Returns tt).

Definition io_bind {A B : Type} (c : io A) (k : A -> io B) : io B :=
  fun log =>
    let (log', o) := c log in
    match o with
    | Returns a => k a log'
    | Throws w => (log', Throws w)
    | Undefined => (log', Undefined)
    end.

(** [try { c } catch (const std::exception &e) { handler }]. *)
Definition try_catch {A : Type} (c : io A) (handler : string -> io A) : io A :=
  fun log =>
    let (log', o) := c log in
    match o with
    | Throws w => handler w log'
    | _ => (log', o)
    end.

Declare Scope io_scope.
Delimit Scope io_scope with io.
Notation "x <~ c ;; k" := (io_bind c (fun x => k))
  (at level 61, c at next level, right associativity) : io_scope.
Notation "c ;;; k" := (io_bind c (fun _ => k))
  (at level 61, right associativity) : io_scope.
Local Open Scope io_scope.

Definition endl : string := String (Ascii.ascii_of_nat 10) EmptyString.

(** [operator<<(int)]. *)
Definition put_int (z : Z) : string := NilZero.string_of_int (Z.to_int z).

(** ** preprocessImage *)

(** The three insertions at the end of [input_tensor_values]; the count
    [input_shape[2] * input_shape[3]] is a product of two [int64_t]. *)
Fixpoint insert_planes (channels : list (list float)) (shape2 shape3 : Z)
                       (input_tensor_values : list float) : outcome (list float) :=
  match channels with
  | [] => Returns input_tensor_values
  | channel :: channels' =>
      (n <- Int64.checked (shape2 * shape3) ;;
       values <- range channel n ;;
       insert_planes channels' shape2 shape3 (input_tensor_values ++ values))%outcome
  end.

Definition preprocessImage (W : World) (image_path : string) (input_shape : list Z)
  : io (list float * Z * Z) :=
  emit (Imread image_path) ;;;
  let image := imread W image_path in
  if empty image then
    lift (Throws ("Could not read the image: " ++ image_path))
  else
    let orig_width := cols image in
    let orig_height := rows image in
    shape2 <~ lift (vec_at input_shape 2) ;;
    shape3 <~ lift (vec_at input_shape 3) ;;
    emit (Resize (Int32.wrap shape2) (Int32.wrap shape3)) ;;;
    resized_image <~ lift (resize W image (Int32.wrap shape2) (Int32.wrap shape3)) ;;
    let resized_image := convertTo (data resized_image) alpha_1_255 in
    let channels := split resized_image in
    input_tensor_values <~ lift (insert_planes channels shape2 shape3 []) ;;
    ret (input_tensor_values, orig_width, orig_height).

(** ** main *)

Definition green : Scalar := (0, 255, 0).
Definition white : Scalar := (255, 255, 255).
Definition black : Scalar := (0, 0, 0).

(** The line printed for a detection. *)
Definition line (W : World) (detection : Detection) : string :=
  let b := bbox detection in
  ("Class ID: " ++ put_int (class_id detection)
   ++ " Confidence: " ++ put_float W (confidence detection)
   ++ " BBox: [" ++ put_int (x b) ++ ", " ++ put_int (y b) ++ ", "
   ++ put_int (width b) ++ ", " ++ put_int (height b) ++ "]"
   ++ " Class Name: " ++ class_name detection ++ endl)%string.

(** The body of the loop over the detections: one line on standard output,
    then the box, the label's background and the label. *)
Definition report (W : World) (image : Canvas) (detection : Detection) : io Canvas :=
  let b := bbox detection in
  emit (Cout (line W detection)) ;;;
  let image := draw image (Outline b green 2) in
  let label := (class_name detection ++ ": " ++ to_string W (confidence detection))%string in
  let '(label_width, label_height, baseLine) := getTextSize W label in
  y1 <~ lift (Int32.checked (y b - label_height)) ;;
  x2 <~ lift (Int32.checked (x b + label_width)) ;;
  y2 <~ lift (Int32.checked (y b + baseLine)) ;;
  let image := draw image (Filled (x b) y1 x2 y2 white) in
  ret (draw image (Text label (x b) (y b) black)).

Fixpoint report_all (W : World) (image : Canvas) (detections : list Detection)
  : io Canvas :=
  match detections with
  | [] => ret image
  | detection :: detections' =>
      image' <~ report W image detection ;;
      report_all W image' detections'
  end.

(** The statements inside [try]. *)
Definition run (W : World) (model_path image_path : string) : io unit :=
  emit (SessionCreate model_path) ;;;
  session <~ lift (create_session W model_path) ;;
  let input_shape := [1; 3; 640; 640] in
  preprocessed <~ preprocessImage W image_path input_shape ;;
  let '(input_tensor_values, orig_width, orig_height) := preprocessed in
  emit (SessionRun input_shape input_tensor_values) ;;;
  results <~ lift (session_run W session input_tensor_values input_shape) ;;
  let confidence_threshold := Float32.ratio 1 2 in
  emit (Imread image_path) ;;;
  let image := imread W image_path in
  shape2 <~ lift (vec_at input_shape 2) ;;
  shape3 <~ lift (vec_at input_shape 3) ;;
  detections <~ lift (filterDetections results confidence_threshold
                        (Int32.wrap shape2) (Int32.wrap shape3)
                        orig_width orig_height) ;;
  image <~ report_all W (mkCanvas image []) detections ;;
  emit (Imwrite "result.jpg" image) ;;;
  lift (imwrite W "result.jpg" image) ;;;
  ret tt.

(** [argv] holds the name of the program and then its arguments, so that
    [argc] is at least 1; the result is the log of the run and the exit
    status.  The environment and the session options are made outside
    [try]: an exception there is not caught. *)
Definition main (W : World) (program : string) (arguments : list string)
  : list event * outcome Z :=
  let argv := program :: arguments in
  let argc := Z.of_nat (List.length argv) in
  if negb (argc =? 3) then
    (emit (Cerr ("Usage: " ++ nth 0 argv ""%string
                 ++ " <model_path> <image_path>" ++ endl)) ;;;
     ret 1) []
  else
    let model_path := nth 1 argv ""%string in
    let image_path := nth 2 argv ""%string in
    (lift (create_env W) ;;;
     try_catch
       (run W model_path image_path ;;; ret 0)
       (fun what => emit (Cerr ("Error: " ++ what ++ endl)) ;;; ret 1)) [].

(** ** Test data *)

Definition f32 (z : Z) : float := Float32.of_int z.
Definition half : float := Float32.ratio 1 2.
Definition f0_92 : float := Float32.ratio 92 100.
Definition f0_25 : float := Float32.ratio 1 4.

(** The record of the end-to-end scenario. *)
Definition scenario_buffer : list float :=
  [f32 320; f32 180; f32 640; f32 360; f0_92; f32 0].

(** Three records: confidences 0.92, 0.25 and 0.5. *)
Definition three_records : list float :=
  scenario_buffer
  ++ [f32 0; f32 0; f32 64; f32 64; f0_25; f32 1]
  ++ [f32 10; f32 20; f32 30; f32 40; half; f32 2].

Definition three_records_detections : list Detection :=
  [ mkDetection f0_92 (mkRect 640 202 640 202) 0 "person";
    mkDetection half (mkRect 20 22 40 22) 2 "car" ].

(** One record and one float more. *)
Definition seven_floats : list float := scenario_buffer ++ [f32 7].

(** A record of class 80, one past the table. *)
Definition class_80 : list float :=
  [f32 0; f32 0; f32 10; f32 10; f32 1; f32 80].

(** A record whose right edge is half a pixel left of its left edge. *)
Definition reversed_half_pixel : list float :=
  [f32 1; f32 0; half; f32 0; f0_92; f32 0].

(** A record whose right and bottom edges are before its left and top
    edges, and one that lies outside the model's input on every side. *)
Definition reversed_box : list float :=
  [f32 300; f32 200; f32 100; f32 50; f0_92; f32 0].
Definition outside_box : list float :=
  [f32 (-50); f32 (-8); f32 2000; f32 3000; f0_92; f32 0].

(** A stand-in for the libraries: every model loads, every path decodes to
    [image], resizing repeats the first pixel, the model's output is
    [output] whatever the input, and the result can be written. *)
Definition test_world (image : Mat) (output : list float) : World :=
  mkWorld unit
    (Returns tt)
    (fun _ => Returns tt)
    (fun _ => image)
    (fun m w h =>
       Returns (mkMat h w
                  match data m with
                  | c0 :: c1 :: c2 :: _ => solid c0 c1 c2 (Z.to_nat (w * h))
                  | _ => []
                  end))
    (fun _ _ _ => Returns output)
    (fun label => (Z.of_nat (String.length label) * 8, 12, 4))
    (fun _ => "0.920000"%string)
    (fun _ => "0.92"%string)
    (fun _ _ => Returns true).

Definition one_pixel : Mat := mkMat 1 1 [0; 51; 255].

(** The size and the shape main gives to [cv::resize] and to the model. *)
Definition fixed_event (e : event) : Prop :=
  match e with
  | Resize width height => width = 640 /\ height = 640
  | SessionRun shape _ => shape = [1; 3; 640; 640]
  | _ => True
  end.

(** ** More test data *)

(** A record below the threshold whose class field is a NaN, after the
    record of the scenario. *)
Definition dropped_nan_class : list float :=
  scenario_buffer ++ [f32 0; f32 0; f32 64; f32 64; f0_25; S754_nan].

(** ** The run, stage by stage *)

(** The events of a run up to the second reading of the image. *)
Definition stages (model_path image_path : string) (tensor : list float)
  : list event :=
  [ SessionCreate model_path; Imread image_path; Resize 640 640;
    SessionRun [1; 3; 640; 640] tensor; Imread image_path ].

(** The label of a detection and what is drawn for it, the coordinates of
    the label's background taken as integers. *)
Definition label (W : World) (d : Detection) : string :=
  (class_name d ++ ": " ++ to_string W (confidence d))%string.

Definition annotation (W : World) (d : Detection) : list primitive :=
  let b := bbox d in
  let '(label_width, label_height, baseLine) := getTextSize W (label W d) in
  [ Outline b green 2;
    Filled (x b) (y b - label_height) (x b + label_width) (y b + baseLine) white;
    Text (label W d) (x b) (y b) black ].

(** The three coordinates computed for the label's background fit an [int]. *)
Definition label_fits (W : World) (d : Detection) : bool :=
  let b := bbox d in
  let '(label_width, label_height, baseLine) := getTextSize W (label W d) in
  Int32.in_range (y b - label_height)
  && Int32.in_range (x b + label_width)
  && Int32.in_range (y b + baseLine).

(** The detection of the scenario for an image of one pixel. *)
Definition one_pixel_detection : Detection :=
  mkDetection f0_92 (mkRect 0 0 0 0) 0 "person".

(** A stand-in for the libraries in which no model loads. *)
Definition no_model_world : World :=
  mkWorld unit
    (Returns tt)
    (fun _ => Throws "Load model failed")
    (fun _ => one_pixel)
    (fun m _ _ => Returns m)
    (fun _ _ _ => Returns [])
    (fun _ => (0, 0, 0))
    (fun _ => ""%string)
    (fun _ => ""%string)
    (fun _ _ => Returns true).

(** A record whose top, scaled from a model of 640 x 640 to an image of one
    pixel, is the least [int], and its detection. *)
Definition top_edge_buffer : list float :=
  [f32 0; f32 (Int32.min * 640); f32 0; f32 (Int32.min * 640); f0_92; f32 0].

Definition top_edge_detection : Detection :=
  mkDetection f0_92 (mkRect 0 Int32.min 0 0) 0 "person".

(** Events that are not a message on [std::cerr], and events that are not a
    call of [cv::imwrite]. *)
Local Notation no_cerr :=
  (fun e : event => match e with Cerr _ => False | _ => True end).
Local Notation no_imwrite :=
  (fun e : event => match e with Imwrite _ _ => False | _ => True end).

(** * Properties *)

(** ** Lists six by six *)

Lemma list_ind6 (A : Type) (P : list A -> Prop) :
  (forall l, (List.length l < 6)%nat -> P l) ->
  (forall a b c d e f rest, P rest -> P (a :: b :: c :: d :: e :: f :: rest)) ->
  forall l, P l.
Proof.
  intros Hshort Hstep.
  fix IH 1.
  intros [|a [|b [|c [|d [|e [|f rest]]]]]];
    try (apply Hshort; simpl; lia).
  apply Hstep, IH.
Qed.

Lemma records_length (results : list float) :
  List.length (records results) = (List.length results / 6)%nat.
Proof.
  induction results as [l Hl | a b c d e f rest IH] using list_ind6.
  - rewrite Nat.div_small by exact Hl.
    do 6 (destruct l as [|? l]; [reflexivity|]). simpl in Hl. lia.
  - change (List.length (a :: b :: c :: d :: e :: f :: rest))
      with (6 + List.length rest)%nat.
    replace (6 + List.length rest)%nat with (List.length rest + 1 * 6)%nat by lia.
    rewrite Nat.div_add by lia. cbn [records List.length]. rewrite IH. lia.
Qed.

(** ** The loop replays [process] over the records *)

Ltac unfold_checked :=
  unfold Int32.checked, Int32.in_range, Int32.min, Int32.max in *.

Section Refinement.

Variable results : list float.
Variable confidence_threshold : float.
Variables img_width img_height orig_width orig_height : Z.

Hypothesis results_fit : Z.of_nat (List.length results) <= Int32.max.

Local Notation body' := (body results confidence_threshold
                           img_width img_height orig_width orig_height).
Local Notation decode' := (decode confidence_threshold
                             img_width img_height orig_width orig_height).

Lemma field_ok (i k : nat) (v : float) :
  nth_error results (6 * i + k) = Some v ->
  field results (Z.of_nat i) (Z.of_nat k) = Returns v.
Proof.
  intros Hnth.
  assert (Hlt : (6 * i + k < List.length results)%nat).
  { apply nth_error_Some. rewrite Hnth. discriminate. }
  unfold field. unfold_checked.
  replace ((- 2 ^ 31 <=? Z.of_nat i * 6) && (Z.of_nat i * 6 <=? 2 ^ 31 - 1))
    with true by (symmetry; apply andb_true_iff; split; apply Z.leb_le; lia).
  cbn [bind].
  replace ((- 2 ^ 31 <=? Z.of_nat i * 6 + Z.of_nat k)
           && (Z.of_nat i * 6 + Z.of_nat k <=? 2 ^ 31 - 1))
    with true by (symmetry; apply andb_true_iff; split; apply Z.leb_le; lia).
  cbn [bind]. unfold vec_at.
  replace (Z.of_nat i * 6 + Z.of_nat k <? 0) with false
    by (symmetry; apply Z.ltb_ge; lia).
  replace (Z.to_nat (Z.of_nat i * 6 + Z.of_nat k)) with (6 * i + k)%nat by lia.
  rewrite Hnth. reflexivity.
Qed.

Lemma body_decode (i : nat) a b c d e f rest detections :
  skipn (6 * i) results = a :: b :: c :: d :: e :: f :: rest ->
  body' (Z.of_nat i) detections
  = (o <- decode' (mkRaw a b c d e f) ;; Returns (push detections o)).
Proof.
  intros Hskip.
  assert (Hk : forall k v,
             nth_error (a :: b :: c :: d :: e :: f :: rest) k = Some v ->
             field results (Z.of_nat i) (Z.of_nat k) = Returns v).
  { intros k v Hk. apply field_ok.
    rewrite <- nth_error_skipn, Hskip. exact Hk. }
  pose proof (Hk 0%nat a eq_refl) as H0. pose proof (Hk 1%nat b eq_refl) as H1.
  pose proof (Hk 2%nat c eq_refl) as H2. pose proof (Hk 3%nat d eq_refl) as H3.
  pose proof (Hk 4%nat e eq_refl) as H4. pose proof (Hk 5%nat f eq_refl) as H5.
  change (Z.of_nat 0) with 0 in H0. change (Z.of_nat 1) with 1 in H1.
  change (Z.of_nat 2) with 2 in H2. change (Z.of_nat 3) with 3 in H3.
  change (Z.of_nat 4) with 4 in H4. change (Z.of_nat 5) with 5 in H5.
  unfold body. rewrite H0, H1, H2, H3, H4, H5.
  cbn [bind]. unfold decode, keeps. cbn [r_class r_confidence r_left r_top r_right r_bottom].
  destruct (defined (Float32.to_int f)) as [cid| |]; cbn [bind]; try reflexivity.
  destruct (Float32.ge e confidence_threshold); [|reflexivity].
  destruct (rescale a orig_width img_width); cbn [bind]; try reflexivity.
  destruct (rescale b orig_height img_height); cbn [bind]; try reflexivity.
  destruct (rescale (Float32.sub c a) orig_width img_width); cbn [bind]; try reflexivity.
  destruct (rescale (Float32.sub d b) orig_height img_height); cbn [bind]; try reflexivity.
  destruct (vec_at CLASS_NAMES cid); cbn [bind]; reflexivity.
Qed.

Lemma process_bind (r : RawRecord) rs detections :
  process confidence_threshold img_width img_height orig_width orig_height
    (r :: rs) detections
  = (detections' <- (o <- decode' r ;; Returns (push detections o)) ;;
     process confidence_threshold img_width img_height orig_width orig_height
       rs detections').
Proof.
  cbn [process]. destruct (decode' r); reflexivity.
Qed.

Lemma for_loop_process (count : nat) :
  forall (i : nat) detections,
    (6 * (i + count) <= List.length results)%nat ->
    for_loop results confidence_threshold
      img_width img_height orig_width orig_height count (Z.of_nat i) detections
    = process confidence_threshold img_width img_height orig_width orig_height
        (firstn count (records (skipn (6 * i) results))) detections.
Proof.
  induction count as [|count IH]; intros i detections Hlen.
  - reflexivity.
  - assert (Hl : (6 <= List.length (skipn (6 * i) results))%nat)
      by (rewrite length_skipn; lia).
    destruct (skipn (6 * i) results)
      as [|a [|b [|c [|d [|e [|f rest]]]]]] eqn:Hskip;
      try (exfalso; simpl in Hl; lia).
    assert (Hrest : rest = skipn (6 * (i + 1)) results).
    { replace (6 * (i + 1))%nat with (6 + 6 * i)%nat by lia.
      rewrite <- skipn_skipn, Hskip. reflexivity. }
    cbn [for_loop records firstn].
    rewrite process_bind, (body_decode i a b c d e f rest detections Hskip).
    destruct (decode' (mkRaw a b c d e f)) as [o| |]; cbn [bind]; try reflexivity.
    replace (Z.of_nat i + 1) with (Z.of_nat (i + 1)) by lia.
    rewrite IH by lia. rewrite Hrest. reflexivity.
Qed.

Lemma num_detections_fit :
  Z.to_nat (num_detections results) = (List.length results / 6)%nat.
Proof.
  unfold num_detections, Int32.wrap. unfold Int32.max in results_fit.
  assert (H0 : 0 <= Z.of_nat (List.length results) / 6)
    by (apply Z.div_pos; lia).
  assert (H1 : Z.of_nat (List.length results) / 6 <= Z.of_nat (List.length results))
    by (apply Z.div_le_upper_bound; lia).
  replace ((Z.of_nat (List.length results) / 6 + 2 ^ 31) mod 2 ^ 32)
    with (Z.of_nat (List.length results) / 6 + 2 ^ 31)
    by (symmetry; apply Z.mod_small; lia).
  replace (Z.of_nat (List.length results) / 6 + 2 ^ 31 - 2 ^ 31)
    with (Z.of_nat (List.length results) / 6) by lia.
  change 6 with (Z.of_nat 6). rewrite <- Nat2Z.inj_div. apply Nat2Z.id.
Qed.

(** On a buffer whose length fits an [int], filterDetections is [process]
    over the buffer's records. *)
Lemma filterDetections_process :
  filterDetections results confidence_threshold
    img_width img_height orig_width orig_height
  = process confidence_threshold img_width img_height orig_width orig_height
      (records results) [].
Proof.
  unfold filterDetections. rewrite num_detections_fit.
  change 0 with (Z.of_nat 0).
  rewrite for_loop_process.
  - cbn [Nat.mul skipn]. rewrite firstn_all2; [reflexivity|].
    rewrite records_length. apply Nat.le_refl.
  - pose proof (Nat.Div0.mul_div_le (List.length results) 6). lia.
Qed.

End Refinement.

(** ** What one record gives *)

Section DecodeFacts.

Variable confidence_threshold : float.
Variables img_width img_height orig_width orig_height : Z.

Local Notation decode' := (decode confidence_threshold
                             img_width img_height orig_width orig_height).
Local Notation process' := (process confidence_threshold
                              img_width img_height orig_width orig_height).
Local Notation keeps' := (keeps confidence_threshold).
Local Notation yields' := (yields img_width img_height orig_width orig_height).

Lemma defined_Returns (A : Type) (o : option A) (a : A) :
  defined o = Returns a -> o = Some a.
Proof. destruct o; simpl; congruence. Qed.

Lemma defined_not_Throws (A : Type) (o : option A) (w : string) :
  defined o <> Throws w.
Proof. destruct o; discriminate. Qed.

Lemma vec_at_not_Throws (A : Type) (v : list A) (i : Z) (w : string) :
  vec_at v i <> Throws w.
Proof. unfold vec_at. destruct (i <? 0); [discriminate|apply defined_not_Throws]. Qed.

Ltac step H :=
  match type of H with
  | bind ?c _ = _ =>
      let E := fresh "E" in
      destruct c eqn:E; cbn [bind] in H; try discriminate H
  end.

Lemma decode_Some (r : RawRecord) (d : Detection) :
  decode' r = Returns (Some d) -> keeps' r = true /\ yields' r d.
Proof.
  unfold decode. intros H. step H.
  destruct (keeps' r) eqn:Hk; [|discriminate H].
  do 5 step H. injection H as <-.
  apply defined_Returns in E.
  repeat split; cbn [confidence bbox class_id class_name x y width height];
    assumption.
Qed.

Lemma decode_None (r : RawRecord) :
  decode' r = Returns None -> keeps' r = false.
Proof.
  unfold decode. intros H. step H.
  destruct (keeps' r) eqn:Hk; [|reflexivity].
  do 5 step H.
Qed.

Lemma yields_decode (r : RawRecord) (d : Detection) :
  keeps' r = true -> yields' r d -> decode' r = Returns (Some d).
Proof.
  intros Hk (Hc & Hid & Hx & Hy & Hw & Hh & Hn).
  unfold decode. rewrite Hid, Hk. cbn [defined bind].
  rewrite Hx, Hy, Hw, Hh, Hn. cbn [bind]. rewrite <- Hc.
  destruct d as [c [bx by_ bw bh] i n]. reflexivity.
Qed.

(** The detections are appended to the accumulator, one per kept record,
    in the order of the records. *)
Lemma process_Returns (rs : list RawRecord) :
  forall detections out,
    process' rs detections = Returns out ->
    exists new, out = detections ++ new /\ Forall2 yields' (filter keeps' rs) new.
Proof.
  induction rs as [|r rs IH]; intros detections out H; cbn [process] in H.
  - injection H as <-. exists []. rewrite app_nil_r. split; constructor.
  - destruct (decode' r) as [[d|]| |] eqn:E; cbn [bind push] in H;
      try discriminate H.
    + apply decode_Some in E as [Hk Hy].
      apply IH in H as (new & -> & HF).
      exists (d :: new). rewrite <- app_assoc. split; [reflexivity|].
      cbn [filter]. rewrite Hk. constructor; assumption.
    + apply decode_None in E.
      apply IH in H as (new & -> & HF).
      exists new. split; [reflexivity|].
      cbn [filter]. rewrite E. exact HF.
Qed.

End DecodeFacts.

(** ** filterDetections raises nothing *)

Section NoThrow.

Variable results : list float.
Variable confidence_threshold : float.
Variables img_width img_height orig_width orig_height : Z.

Lemma checked_not_Throws (z : Z) (w : string) : Int32.checked z <> Throws w.
Proof. unfold Int32.checked. destruct (Int32.in_range z); discriminate. Qed.

Lemma field_not_Throws (i k : Z) (w : string) : field results i k <> Throws w.
Proof.
  unfold field. intros H.
  destruct (Int32.checked (i * 6)) eqn:E1; cbn [bind] in H; try discriminate H.
  - destruct (Int32.checked (a + k)) eqn:E2; cbn [bind] in H; try discriminate H.
    + exact (vec_at_not_Throws _ _ _ _ H).
    + exact (checked_not_Throws _ _ E2).
  - exact (checked_not_Throws _ _ E1).
Qed.

Lemma body_not_Throws (i : Z) detections (w : string) :
  body results confidence_threshold img_width img_height orig_width orig_height
    i detections <> Throws w.
Proof.
  unfold body, rescale. intros H.
  destruct (field results i 0) as [left| |] eqn:E0; cbn [bind] in H;
    [ | exact (field_not_Throws _ _ _ E0) | discriminate H ].
  destruct (field results i 1) as [top| |] eqn:E1; cbn [bind] in H;
    [ | exact (field_not_Throws _ _ _ E1) | discriminate H ].
  destruct (field results i 2) as [right| |] eqn:E2; cbn [bind] in H;
    [ | exact (field_not_Throws _ _ _ E2) | discriminate H ].
  destruct (field results i 3) as [bottom| |] eqn:E3; cbn [bind] in H;
    [ | exact (field_not_Throws _ _ _ E3) | discriminate H ].
  destruct (field results i 4) as [conf| |] eqn:E4; cbn [bind] in H;
    [ | exact (field_not_Throws _ _ _ E4) | discriminate H ].
  destruct (field results i 5) as [cls| |] eqn:E5; cbn [bind] in H;
    [ | exact (field_not_Throws _ _ _ E5) | discriminate H ].
  destruct (Float32.to_int cls) as [cid|]; cbn [defined bind] in H;
    [|discriminate H].
  destruct (Float32.ge conf confidence_threshold); [|discriminate H].
  repeat match type of H with
         | bind (defined ?o) _ = _ => destruct o; cbn [defined bind] in H;
                                      [|discriminate H]
         end.
  destruct (vec_at CLASS_NAMES cid) eqn:E; cbn [bind] in H; try discriminate H.
  exact (vec_at_not_Throws _ _ _ _ E).
Qed.

Lemma for_loop_not_Throws (count : nat) :
  forall (i : Z) detections (w : string),
    for_loop results confidence_threshold img_width img_height orig_width orig_height
      count i detections <> Throws w.
Proof.
  induction count as [|count IH]; intros i detections w; cbn [for_loop].
  - discriminate.
  - destruct (body results confidence_threshold img_width img_height
                orig_width orig_height i detections) eqn:E; cbn [bind].
    + apply IH.
    + exfalso. exact (body_not_Throws _ _ _ E).
    + discriminate.
Qed.

Lemma filterDetections_not_Throws (w : string) :
  filterDetections results confidence_threshold
    img_width img_height orig_width orig_height <> Throws w.
Proof. apply for_loop_not_Throws. Qed.

End NoThrow.

(** ** An incomplete last record is not read *)

Section Tail.

Variable results : list float.
Variable confidence_threshold : float.
Variables img_width img_height orig_width orig_height : Z.

Local Notation whole := (6 * (List.length results / 6))%nat.

Lemma whole_le : (whole <= List.length results)%nat.
Proof. apply Nat.Div0.mul_div_le. Qed.

Lemma num_detections_firstn :
  num_detections (firstn whole results) = num_detections results.
Proof.
  unfold num_detections. rewrite length_firstn, Nat.min_l by apply whole_le.
  f_equal.
  rewrite Nat2Z.inj_mul, Nat2Z.inj_div. change (Z.of_nat 6) with 6.
  rewrite Z.mul_comm, Z.div_mul by discriminate. reflexivity.
Qed.

Lemma num_detections_le :
  (Z.to_nat (num_detections results) <= List.length results / 6)%nat.
Proof.
  unfold num_detections, Int32.wrap.
  set (q := (List.length results / 6)%nat).
  replace (Z.of_nat (List.length results) / 6) with (Z.of_nat q)
    by (unfold q; rewrite Nat2Z.inj_div; reflexivity).
  pose proof (Z.mod_pos_bound (Z.of_nat q + 2 ^ 31) (2 ^ 32) ltac:(lia)) as Hm.
  pose proof (Z.div_mod (Z.of_nat q + 2 ^ 31) (2 ^ 32) ltac:(lia)) as Hd.
  assert (0 <= (Z.of_nat q + 2 ^ 31) / 2 ^ 32) by (apply Z.div_pos; lia).
  nia.
Qed.

Lemma field_firstn (i : nat) (k : Z) :
  (i < List.length results / 6)%nat -> 0 <= k < 6 ->
  field (firstn whole results) (Z.of_nat i) k = field results (Z.of_nat i) k.
Proof.
  intros Hi Hk. unfold field.
  destruct (Int32.checked (Z.of_nat i * 6)) as [i6| |] eqn:E1; cbn [bind];
    try reflexivity.
  destruct (Int32.checked (i6 + k)) as [idx| |] eqn:E2; cbn [bind];
    try reflexivity.
  unfold Int32.checked in E1, E2.
  destruct (Int32.in_range (Z.of_nat i * 6)); [|discriminate E1].
  destruct (Int32.in_range (i6 + k)); [|discriminate E2].
  injection E1 as <-. injection E2 as <-.
  unfold vec_at. destruct (Z.of_nat i * 6 + k <? 0); [reflexivity|].
  rewrite nth_error_firstn.
  replace (Z.to_nat (Z.of_nat i * 6 + k) <? whole)%nat with true; [reflexivity|].
  symmetry. apply Nat.ltb_lt. lia.
Qed.

Lemma body_firstn (i : nat) detections :
  (i < List.length results / 6)%nat ->
  body (firstn whole results) confidence_threshold
    img_width img_height orig_width orig_height (Z.of_nat i) detections
  = body results confidence_threshold
      img_width img_height orig_width orig_height (Z.of_nat i) detections.
Proof.
  intros Hi. unfold body.
  rewrite !(field_firstn i) by (assumption || lia). reflexivity.
Qed.

Lemma for_loop_firstn (count : nat) :
  forall (i : nat) detections,
    (i + count <= List.length results / 6)%nat ->
    for_loop (firstn whole results) confidence_threshold
      img_width img_height orig_width orig_height count (Z.of_nat i) detections
    = for_loop results confidence_threshold
        img_width img_height orig_width orig_height count (Z.of_nat i) detections.
Proof.
  induction count as [|count IH]; intros i detections Hi; cbn [for_loop].
  - reflexivity.
  - rewrite body_firstn by lia.
    destruct (body results confidence_threshold img_width img_height
                orig_width orig_height (Z.of_nat i) detections); cbn [bind];
      try reflexivity.
    replace (Z.of_nat i + 1) with (Z.of_nat (i + 1)) by lia.
    apply IH. lia.
Qed.

Lemma filterDetections_firstn :
  filterDetections (firstn whole results) confidence_threshold
    img_width img_height orig_width orig_height
  = filterDetections results confidence_threshold
      img_width img_height orig_width orig_height.
Proof.
  unfold filterDetections. rewrite num_detections_firstn.
  change 0 with (Z.of_nat 0). apply for_loop_firstn.
  pose proof num_detections_le. lia.
Qed.

End Tail.

(** ** preprocessImage *)

Lemma list_ind3 (A : Type) (P : list A -> Prop) :
  (forall l, (List.length l < 3)%nat -> P l) ->
  (forall a b c rest, P rest -> P (a :: b :: c :: rest)) ->
  forall l, P l.
Proof.
  intros Hshort Hstep.
  fix IH 1.
  intros [|a [|b [|c rest]]]; try (apply Hshort; simpl; lia).
  apply Hstep, IH.
Qed.

Lemma plane_length (A : Type) (c : nat) (l : list A) :
  (3 * List.length (plane c l) <= List.length l)%nat
  /\ (List.length l < 3 * List.length (plane c l) + 3)%nat.
Proof.
  induction l as [l Hl | a0 a1 a2 rest IH] using list_ind3.
  - do 3 (destruct l as [|? l]; [simpl; lia|]). simpl in Hl. lia.
  - cbn [plane List.length]. lia.
Qed.

Lemma plane_map (A B : Type) (f : A -> B) (c : nat) (l : list A) :
  plane c (map f l) = map f (plane c l).
Proof.
  induction l as [l Hl | a0 a1 a2 rest IH] using list_ind3.
  - do 3 (destruct l as [|? l]; [reflexivity|]). simpl in Hl. lia.
  - cbn [plane map]. rewrite IH. destruct c as [|[|c]]; reflexivity.
Qed.

Lemma plane_nth_error (A : Type) (c : nat) (l : list A) :
  (c < 3)%nat ->
  forall i, (i < List.length (plane c l))%nat ->
            nth_error (plane c l) i = nth_error l (3 * i + c).
Proof.
  intros Hc.
  induction l as [l Hl | a0 a1 a2 rest IH] using list_ind3; intros i Hi.
  - exfalso. revert Hi.
    do 3 (destruct l as [|? l]; [simpl; lia|]). simpl in Hl. lia.
  - cbn [plane] in *. destruct i as [|i].
    + replace (3 * 0 + c)%nat with c by lia.
      destruct c as [|[|[|c]]]; try reflexivity. lia.
    + cbn [List.length] in Hi.
      replace (3 * S i + c)%nat with (S (S (S (3 * i + c)))) by lia.
      cbn [nth_error]. apply IH. lia.
Qed.

Lemma plane_solid (A : Type) (c0 c1 c2 : A) (pixels : nat) (c : nat) :
  plane c (solid c0 c1 c2 pixels)
  = repeat (match c with 0%nat => c0 | 1%nat => c1 | _ => c2 end) pixels.
Proof.
  unfold solid. induction pixels as [|pixels IH]; [reflexivity|].
  cbn [repeat List.concat app plane]. rewrite IH. reflexivity.
Qed.

Lemma solid_length (A : Type) (c0 c1 c2 : A) (pixels : nat) :
  List.length (solid c0 c1 c2 pixels) = (3 * pixels)%nat.
Proof.
  unfold solid. induction pixels as [|pixels IH]; [reflexivity|].
  cbn [repeat List.concat app List.length]. rewrite IH. lia.
Qed.

Lemma range_all (A : Type) (buffer : list A) (n : Z) :
  Z.of_nat (List.length buffer) = n -> range buffer n = Returns buffer.
Proof.
  intros <-. unfold range.
  replace ((0 <=? Z.of_nat (List.length buffer))
           && (Z.of_nat (List.length buffer) <=? Z.of_nat (List.length buffer)))
    with true by (symmetry; apply andb_true_iff; split; apply Z.leb_le; lia).
  rewrite Nat2Z.id, firstn_all. reflexivity.
Qed.

Lemma insert_planes_split (values : list float) (shape2 shape3 : Z) :
  Z.of_nat (List.length values) = 3 * (shape2 * shape3) ->
  shape2 * shape3 <= Int64.max ->
  insert_planes (split values) shape2 shape3 [] = Returns (channel_major values).
Proof.
  intros Hlen Hmax.
  assert (Hp : forall c, Z.of_nat (List.length (plane c values)) = shape2 * shape3).
  { intros c. pose proof (plane_length _ c values). lia. }
  assert (Hn : Int64.checked (shape2 * shape3) = Returns (shape2 * shape3)).
  { unfold Int64.checked, Int64.in_range, Int64.min.
    replace ((- 2 ^ 63 <=? shape2 * shape3) && (shape2 * shape3 <=? Int64.max))
      with true; [reflexivity|].
    symmetry. apply andb_true_iff. split; apply Z.leb_le; lia. }
  unfold split, channel_major. cbn [insert_planes].
  rewrite Hn. cbn [bind].
  rewrite !range_all by apply Hp. cbn [bind app].
  rewrite <- app_assoc. reflexivity.
Qed.

(** What preprocessImage does when the image decodes and [cv::resize] gives
    three channels of the size asked for. *)
Lemma preprocessImage_Returns (W : World) (image_path : string)
      (batch channels shape2 shape3 : Z) (log : list event) (resized : Mat) :
  empty (imread W image_path) = false ->
  resize W (imread W image_path) (Int32.wrap shape2) (Int32.wrap shape3)
  = Returns resized ->
  Z.of_nat (List.length (data resized)) = 3 * (shape2 * shape3) ->
  shape2 * shape3 <= Int64.max ->
  preprocessImage W image_path [batch; channels; shape2; shape3] log
  = (log ++ [Imread image_path; Resize (Int32.wrap shape2) (Int32.wrap shape3)],
     Returns (channel_major (convertTo (data resized) alpha_1_255),
              cols (imread W image_path), rows (imread W image_path))).
Proof.
  intros Hne Hrs Hlen Hmax.
  unfold preprocessImage, io_bind, emit, lift, ret. rewrite Hne.
  change (vec_at [batch; channels; shape2; shape3] 2) with (Returns shape2).
  change (vec_at [batch; channels; shape2; shape3] 3) with (Returns shape3).
  cbv iota beta. rewrite Hrs. cbv iota beta.
  rewrite insert_planes_split
    by (try exact Hmax; unfold convertTo; rewrite length_map; exact Hlen).
  rewrite <- app_assoc. reflexivity.
Qed.

Lemma normalize_near_table :
  forallb (fun v => Float32.near (normalize v) v 255) (map Z.of_nat (seq 0 256))
  = true.
Proof. vm_compute. reflexivity. Qed.

Lemma normalize_near (v : Z) :
  0 <= v <= 255 -> Float32.near (normalize v) v 255 = true.
Proof.
  intros Hv. pose proof normalize_near_table as Ht.
  rewrite forallb_forall in Ht. apply Ht.
  replace v with (Z.of_nat (Z.to_nat v)) by lia.
  apply in_map, in_seq. lia.
Qed.

Lemma channel_major_nth_error (A : Type) (l : list A) (pixels : nat) :
  List.length l = (3 * pixels)%nat ->
  forall c i, (c < 3)%nat -> (i < pixels)%nat ->
              nth_error (channel_major l) (c * pixels + i) = nth_error l (3 * i + c).
Proof.
  intros Hlen c i Hc Hi.
  assert (Hp : forall k, List.length (plane k l) = pixels).
  { intros k. pose proof (plane_length _ k l). lia. }
  unfold channel_major.
  destruct c as [|[|[|c]]]; [| | |lia].
  - rewrite nth_error_app1 by (rewrite Hp; lia).
    apply plane_nth_error; [lia|rewrite Hp; lia].
  - rewrite nth_error_app2 by (rewrite Hp; lia).
    rewrite nth_error_app1 by (rewrite !Hp; lia).
    rewrite Hp. replace (1 * pixels + i - pixels)%nat with i by lia.
    apply plane_nth_error; [lia|rewrite Hp; lia].
  - rewrite nth_error_app2 by (rewrite Hp; lia).
    rewrite nth_error_app2 by (rewrite !Hp; lia).
    rewrite !Hp. replace (2 * pixels + i - pixels - pixels)%nat with i by lia.
    apply plane_nth_error; [lia|rewrite Hp; lia].
Qed.

(** ** Signs through the float operations *)

Section Signs.

Local Notation prec := Float32.prec.
Local Notation emax := Float32.emax.

Lemma binary_round_aux_signed (s : bool) (m e : Z) (l : location) :
  Float32.signed s (binary_round_aux prec emax s m e l).
Proof.
  unfold binary_round_aux.
  destruct (shr_fexp prec emax m e l) as [mrs' e'].
  destruct (shr_fexp prec emax _ e' loc_Exact) as [mrs'' e''].
  destruct (shr_m mrs''); [reflexivity| |exact I].
  destruct (e'' <=? emax - prec); reflexivity.
Qed.

Lemma binary_round_signed (s : bool) (m : positive) (e : Z) :
  Float32.signed s (binary_round prec emax s m e).
Proof.
  unfold binary_round. destruct (shl_align _ _ _) as [mz ez].
  apply binary_round_aux_signed.
Qed.

Lemma of_int_signed (z : Z) : 0 < z -> Float32.signed false (Float32.of_int z).
Proof.
  destruct z as [|p|p]; try lia. intros _.
  unfold Float32.of_int, binary_normalize. apply binary_round_signed.
Qed.

Lemma mul_signed (a b : float) (s : bool) :
  Float32.signed s a -> Float32.signed false b ->
  Float32.signed s (Float32.mul a b).
Proof.
  unfold Float32.mul.
  destruct a as [sa|sa| |sa ma ea], b as [sb|sb| |sb mb eb];
    cbn [Float32.signed SFmul]; intros Ha Hb; try subst sa; try subst sb;
    try exact I; try (rewrite xorb_false_r; reflexivity).
  rewrite xorb_false_r. apply binary_round_aux_signed.
Qed.

Lemma div_signed (a b : float) (s : bool) :
  Float32.signed s a -> Float32.signed false b ->
  Float32.signed s (Float32.div a b).
Proof.
  unfold Float32.div.
  destruct a as [sa|sa| |sa ma ea], b as [sb|sb| |sb mb eb];
    cbn [Float32.signed SFdiv]; intros Ha Hb; try subst sa; try subst sb;
    try exact I; try (rewrite xorb_false_r; reflexivity).
  rewrite xorb_false_r.
  destruct (SFdiv_core_binary prec emax (Z.pos ma) ea (Z.pos mb) eb) as [[mz ez] lz].
  apply binary_round_aux_signed.
Qed.

Lemma trunc_signed (f : float) (z : Z) :
  Float32.signed true f -> Float32.trunc f = Some z -> z <= 0.
Proof.
  destruct f as [s|s| |s m e]; unfold Float32.signed, Float32.trunc;
    intros Hs H; try discriminate H.
  - injection H as <-. lia.
  - subst s. injection H as <-. unfold cond_Zopp.
    destruct (0 <=? e) eqn:E.
    + assert (0 <= 2 ^ e) by (apply Z.pow_nonneg; lia).
      assert (0 <= Z.pos m * 2 ^ e) by (apply Z.mul_nonneg_nonneg; lia).
      change (- (Z.pos m * 2 ^ e) <= 0). lia.
    + apply Z.leb_gt in E.
      assert (0 < 2 ^ (- e)) by (apply Z.pow_pos_nonneg; lia).
      assert (0 <= Z.pos m / 2 ^ (- e)) by (apply Z.div_pos; lia).
      change (- (Z.pos m / 2 ^ (- e)) <= 0). lia.
Qed.

(** *** Mantissas *)

Lemma digits2_pos_bounds (m : positive) :
  2 ^ (Z.pos (digits2_pos m) - 1) <= Z.pos m < 2 ^ Z.pos (digits2_pos m).
Proof.
  induction m as [m IH|m IH|]; cbn [digits2_pos].
  - rewrite Pos2Z.inj_succ.
    replace (Z.succ (Z.pos (digits2_pos m)) - 1)
      with (Z.succ (Z.pos (digits2_pos m) - 1)) by lia.
    rewrite !Z.pow_succ_r by lia. lia.
  - rewrite Pos2Z.inj_succ.
    replace (Z.succ (Z.pos (digits2_pos m)) - 1)
      with (Z.succ (Z.pos (digits2_pos m) - 1)) by lia.
    rewrite !Z.pow_succ_r by lia. lia.
  - simpl. lia.
Qed.

Lemma iter_xO (m d : positive) :
  Z.pos (Pos.iter xO m d) = Z.pos m * 2 ^ Z.pos d.
Proof.
  rewrite (Pos.iter_swap_gen _ _ Z.pos xO (Z.mul 2)) by reflexivity.
  change (Pos.iter (Z.mul 2) (Z.pos m) d) with (Z.shiftl (Z.pos m) (Z.pos d)).
  apply Z.shiftl_mul_pow2. lia.
Qed.

Lemma shl_align_value (m : positive) (e e' : Z) :
  e' <= e -> Z.pos (fst (shl_align m e e')) = Z.pos m * 2 ^ (e - e').
Proof.
  intros Hle. unfold shl_align.
  destruct (e' - e) as [|d|d] eqn:E; try lia; cbn [fst].
  - replace (e - e') with 0 by lia. lia.
  - rewrite iter_xO. f_equal. f_equal. lia.
Qed.

(** A valid finite float has at most [prec] digits, its exponent is at
    least [emin], and above [emin] it has exactly [prec] digits. *)
Lemma valid_finite (s : bool) (m : positive) (e : Z) :
  Float32.valid (S754_finite s m e) = true ->
  -149 <= e /\ Z.pos m < 2 ^ 24 /\ (-149 < e -> 2 ^ 23 <= Z.pos m).
Proof.
  unfold Float32.valid, valid_binary, bounded, canonical_mantissa, fexp, emin.
  intros H. apply andb_true_iff in H as [H _]. apply Z.eqb_eq in H.
  change (3 - emax - prec) with (-149) in H. change prec with 24 in H.
  pose proof (digits2_pos_bounds m) as [Hlo Hhi].
  assert (Hd : Z.pos (digits2_pos m) <= 24) by lia.
  repeat split.
  - lia.
  - eapply Z.lt_le_trans; [exact Hhi|]. apply Z.pow_le_mono_r; lia.
  - intros He. replace (Z.pos (digits2_pos m)) with 24 in Hlo by lia. exact Hlo.
Qed.

(** Of two valid positive floats, the one with the smaller exponent is
    the smaller. *)
Lemma aligned_lt (m1 m2 : positive) (e1 e2 : Z) (s1 s2 : bool) :
  Float32.valid (S754_finite s1 m1 e1) = true ->
  Float32.valid (S754_finite s2 m2 e2) = true ->
  e1 < e2 ->
  Z.pos (fst (shl_align m1 e1 (Z.min e1 e2)))
  < Z.pos (fst (shl_align m2 e2 (Z.min e1 e2))).
Proof.
  intros H1 H2 Hlt.
  apply valid_finite in H1 as (Hmin & Hm1 & _).
  apply valid_finite in H2 as (_ & _ & Hm2).
  rewrite !shl_align_value by lia.
  replace (Z.min e1 e2) with e1 by lia.
  replace (e1 - e1) with 0 by lia.
  replace (e2 - e1) with (Z.succ (e2 - e1 - 1)) by lia.
  rewrite Z.pow_succ_r by lia.
  assert (0 < 2 ^ (e2 - e1 - 1)) by (apply Z.pow_pos_nonneg; lia).
  specialize (Hm2 ltac:(lia)). change (2 ^ 0) with 1.
  assert (Z.pos m2 * 1 <= Z.pos m2 * 2 ^ (e2 - e1 - 1))
    by (apply Z.mul_le_mono_nonneg_l; lia).
  change (2 ^ 24) with 16777216 in Hm1. change (2 ^ 23) with 8388608 in Hm2.
  lia.
Qed.

Lemma aligned_eq (m : positive) (e : Z) :
  Z.pos (fst (shl_align m e (Z.min e e))) = Z.pos m.
Proof.
  rewrite shl_align_value by lia.
  replace (e - Z.min e e) with 0 by lia. change (2 ^ 0) with 1. lia.
Qed.

Lemma normalize_negative (z e : Z) :
  z < 0 -> Float32.signed true (binary_normalize prec emax z e false).
Proof.
  destruct z as [|p|p]; try lia. intros _. apply binary_round_signed.
Qed.

(** [a - b] carries the sign bit when [a < b], for valid [a] and [b]. *)
Lemma sub_signed (a b : float) :
  Float32.valid a = true -> Float32.valid b = true ->
  Float32.lt a b = true ->
  Float32.signed true (Float32.sub a b).
Proof.
  unfold Float32.lt, SFltb, Float32.sub. intros Va Vb.
  destruct a as [sa|sa| |sa ma ea], b as [sb|sb| |sb mb eb];
    cbn [SFcompare SFsub Float32.signed];
    try discriminate;
    try (destruct sa; try discriminate; try reflexivity;
         destruct sb; try discriminate; reflexivity);
    try (destruct sb; try discriminate; reflexivity).
  intros Hcmp. apply normalize_negative.
  destruct sa, sb; cbn [cond_Zopp]; try discriminate Hcmp.
  - (* both negative *)
    destruct (Z.compare_spec ea eb) as [->|Hlt|Hgt]; try discriminate Hcmp.
    + rewrite !aligned_eq.
      change (Pos.compare_cont Eq ma mb) with (Pos.compare ma mb) in Hcmp.
      destruct (Pos.compare_spec ma mb) as [Hm|Hm|Hm];
        cbn [CompOpp] in Hcmp; try discriminate Hcmp.
      lia.
    + pose proof (aligned_lt mb ma eb ea true true Vb Va Hgt) as H.
      rewrite Z.min_comm in H. lia.
  - (* negative minus positive *)
    lia.
  - (* both positive *)
    destruct (Z.compare_spec ea eb) as [->|Hlt|Hgt]; try discriminate Hcmp.
    + rewrite !aligned_eq.
      change (Pos.compare_cont Eq ma mb) with (Pos.compare ma mb) in Hcmp.
      destruct (Pos.compare_spec ma mb) as [Hm|Hm|Hm]; try discriminate Hcmp.
      lia.
    + pose proof (aligned_lt ma mb ea eb false false Va Vb Hlt). lia.
Qed.

(** The scaled difference of a reversed pair is never positive. *)
Lemma rescale_reversed (a b : float) (orig img z : Z) :
  Float32.valid a = true -> Float32.valid b = true ->
  Float32.lt a b = true -> 0 < orig -> 0 < img ->
  rescale (Float32.sub a b) orig img = Returns z -> z <= 0.
Proof.
  intros Va Vb Hlt Ho Hi H. unfold rescale in H.
  apply defined_Returns in H. unfold Float32.to_int in H.
  destruct (Float32.trunc _) as [t|] eqn:Ht; [|discriminate H].
  destruct (Int32.in_range t); [|discriminate H]. injection H as <-.
  refine (trunc_signed _ _ _ Ht).
  apply div_signed; [|apply of_int_signed; exact Hi].
  apply mul_signed; [|apply of_int_signed; exact Ho].
  apply sub_signed; assumption.
Qed.

End Signs.

(** ** The returned detections, characterised *)

Section Characterisation.

Variable results : list float.
Variable confidence_threshold : float.
Variables img_width img_height orig_width orig_height : Z.

Hypothesis results_fit : Z.of_nat (List.length results) <= Int32.max.

Local Notation keeps' := (keeps confidence_threshold).
Local Notation yields' := (yields img_width img_height orig_width orig_height).
Local Notation process' := (process confidence_threshold
                              img_width img_height orig_width orig_height).
Local Notation decode' := (decode confidence_threshold
                             img_width img_height orig_width orig_height).

Lemma decode_class (r : RawRecord) o :
  decode' r = Returns o -> Float32.to_int (r_class r) <> None.
Proof.
  unfold decode. destruct (Float32.to_int (r_class r)); [discriminate|].
  cbn [defined bind]. discriminate.
Qed.

Lemma process_classes (rs : list RawRecord) :
  forall detections out,
    process' rs detections = Returns out ->
    Forall (fun r => Float32.to_int (r_class r) <> None) rs.
Proof.
  induction rs as [|r rs IH]; intros detections out H; cbn [process] in H.
  - constructor.
  - destruct (decode' r) as [o| |] eqn:E; cbn [bind] in H; try discriminate H.
    constructor; [exact (decode_class _ _ E)|exact (IH _ _ H)].
Qed.

Lemma process_complete (rs : list RawRecord) :
  forall detections new,
    Forall (fun r => Float32.to_int (r_class r) <> None) rs ->
    Forall2 yields' (filter keeps' rs) new ->
    process' rs detections = Returns (detections ++ new).
Proof.
  induction rs as [|r rs IH]; intros detections new Hc Hy; cbn [process filter] in *.
  - inversion Hy. rewrite app_nil_r. reflexivity.
  - inversion Hc as [|? ? Hr Hrs]; subst.
    destruct (keeps' r) eqn:Hk.
    + inversion Hy as [|? d ? new' Hd Hnew]; subst.
      rewrite (yields_decode _ _ _ _ _ _ _ Hk Hd). cbn [bind push].
      rewrite (IH _ new' Hrs Hnew), <- app_assoc. reflexivity.
    + assert (E : decode' r = Returns None).
      { unfold decode. destruct (Float32.to_int (r_class r)); [|contradiction].
        cbn [defined bind]. fold (keeps' r). rewrite Hk. reflexivity. }
      rewrite E. cbn [bind push]. apply IH; assumption.
Qed.

(** filterDetections returns [detections] exactly when the class field of
    every record converts to [int] and the kept records yield
    [detections], one each and in order. *)
Lemma filterDetections_Returns (detections : list Detection) :
  filterDetections results confidence_threshold
    img_width img_height orig_width orig_height = Returns detections
  <-> Forall (fun r => Float32.to_int (r_class r) <> None) (records results)
      /\ Forall2 yields' (filter keeps' (records results)) detections.
Proof.
  rewrite filterDetections_process by exact results_fit. split.
  - intros H. split; [exact (process_classes _ _ _ H)|].
    apply process_Returns in H as (new & -> & HF). exact HF.
  - intros [Hc Hy]. exact (process_complete _ [] _ Hc Hy).
Qed.

End Characterisation.

Lemma ge_not_lt (a b : float) : Float32.ge a b = true -> Float32.lt a b = false.
Proof.
  unfold Float32.ge, Float32.lt, SFltb.
  destruct (SFcompare a b) as [[| |]|]; congruence.
Qed.

Lemma lt_not_ge (a b : float) : Float32.lt a b = true -> Float32.ge a b = false.
Proof.
  unfold Float32.ge, Float32.lt, SFltb.
  destruct (SFcompare a b) as [[| |]|]; congruence.
Qed.

Lemma vec_at_range (A : Type) (v : list A) (i : Z) (a : A) :
  vec_at v i = Returns a -> 0 <= i < Z.of_nat (List.length v).
Proof.
  unfold vec_at. destruct (i <? 0) eqn:E; [discriminate|].
  apply Z.ltb_ge in E. intros H. apply defined_Returns in H.
  assert (Hn : nth_error v (Z.to_nat i) <> None) by congruence.
  apply nth_error_Some in Hn. lia.
Qed.

(** A returned detection carries a class id inside the table. *)
Lemma yields_class_id Wm Hm Wo Ho (r : RawRecord) (d : Detection) :
  yields Wm Hm Wo Ho r d ->
  0 <= class_id d < 80
  /\ nth_error CLASS_NAMES (Z.to_nat (class_id d)) = Some (class_name d).
Proof.
  intros (_ & _ & _ & _ & _ & _ & Hn).
  pose proof (vec_at_range _ _ _ _ Hn) as Hr. split; [exact Hr|].
  unfold vec_at in Hn.
  replace (class_id d <? 0) with false in Hn by (symmetry; apply Z.ltb_ge; lia).
  exact (defined_Returns _ _ _ Hn).
Qed.

(** The kept elements of a list, by increasing position. *)
Lemma filter_positions (A : Type) (p : A -> bool) (l : list A) :
  exists positions : list nat,
    StronglySorted Nat.lt positions
    /\ Forall2 (fun i a => nth_error l i = Some a /\ p a = true) positions (filter p l).
Proof.
  induction l as [|a l (positions & Hs & Hf)].
  - exists []. split; constructor.
  - assert (Hshift : Forall2 (fun i b => nth_error (a :: l) i = Some b /\ p b = true)
                       (map S positions) (filter p l)).
    { clear Hs. induction Hf; cbn [map]; constructor; auto. }
    assert (Hsorted : StronglySorted Nat.lt (map S positions)).
    { clear Hf Hshift. induction Hs as [|i positions Hs IH Hall]; cbn [map];
        constructor; [exact IH|].
      apply Forall_map. eapply Forall_impl; [|exact Hall].
      intros j Hj. cbn beta. unfold Nat.lt in *. lia. }
    cbn [filter]. destruct (p a) eqn:Hp.
    + exists (0%nat :: map S positions). split.
      * constructor; [exact Hsorted|].
        apply Forall_map, Forall_forall. intros j _. unfold Nat.lt. lia.
      * constructor; [split; [reflexivity|exact Hp]|exact Hshift].
    + exists (map S positions). split; assumption.
Qed.

Lemma Forall2_compose (A B C : Type) (P : A -> B -> Prop) (Q : B -> C -> Prop)
      (la : list A) (lb : list B) :
  Forall2 P la lb ->
  forall lc, Forall2 Q lb lc ->
  Forall2 (fun a c => exists b, P a b /\ Q b c) la lc.
Proof.
  induction 1 as [|a b la lb Hab _ IH]; intros lc Hq; inversion Hq; subst.
  - constructor.
  - constructor; [exists b; split; assumption|apply IH; assumption].
Qed.

(** * The claims *)

(** C1. On a buffer whose length fits an [int], the detections
    filterDetections returns are those of the records whose confidence is
    [>=] the threshold, and of no other record: their confidences are the
    confidences of exactly these records, each is [>=] the threshold, and a
    record whose confidence is [<] the threshold is not among the kept
    ones. *)
Theorem filterDetections_threshold :
  forall (results : list float) (confidence_threshold : float)
         (img_width img_height orig_width orig_height : Z)
         (detections : list Detection),
    Z.of_nat (List.length results) <= Int32.max ->
    filterDetections results confidence_threshold
      img_width img_height orig_width orig_height = Returns detections ->
    map confidence detections
    = map r_confidence (filter (keeps confidence_threshold) (records results))
    /\ Forall (fun d => Float32.ge (confidence d) confidence_threshold = true)
         detections
    /\ (forall d, In d detections ->
                  Float32.lt (confidence d) confidence_threshold = false)
    /\ (forall r, Float32.lt (r_confidence r) confidence_threshold = true ->
                  ~ In r (filter (keeps confidence_threshold) (records results))).
Proof.
  intros results th Wm Hm Wo Ho detections Hfit H.
  apply filterDetections_Returns in H as [_ Hy]; [|exact Hfit].
  assert (Hkept : Forall (fun r => keeps th r = true)
                    (filter (keeps th) (records results))).
  { apply Forall_forall. intros r Hr. apply filter_In in Hr. tauto. }
  revert Hy Hkept.
  generalize (filter (keeps th) (records results)) as kept.
  intros kept Hy Hkept.
  assert (Hge : Forall (fun d => Float32.ge (confidence d) th = true) detections).
  { induction Hy as [|r d kept detections Hrd _ IH].
    - constructor.
    - inversion Hkept as [|? ? Hr Hrest]; subst. constructor; [|exact (IH Hrest)].
      destruct Hrd as (-> & _). exact Hr. }
  repeat split.
  - clear Hkept Hge. induction Hy as [|r d kept detections Hrd _ IH].
    + reflexivity.
    + cbn [map]. destruct Hrd as (-> & _). rewrite IH. reflexivity.
  - exact Hge.
  - intros d Hd. apply ge_not_lt. rewrite Forall_forall in Hge. auto.
  - intros r Hlt Hin. rewrite Forall_forall in Hkept.
    apply Hkept in Hin. unfold keeps in Hin.
    apply lt_not_ge in Hlt. congruence.
Qed.

Lemma filterDetections_threshold_witness :
  Z.of_nat (List.length three_records) <= Int32.max
  /\ filterDetections three_records half 640 640 1280 720
     = Returns three_records_detections
  /\ map confidence three_records_detections
     = map r_confidence (filter (keeps half) (records three_records)).
Proof.
  assert (H1 : Z.of_nat (List.length three_records) <= Int32.max)
    by (vm_compute; discriminate).
  assert (H2 : filterDetections three_records half 640 640 1280 720
               = Returns three_records_detections) by (vm_compute; reflexivity).
  exact (conj H1 (conj H2
           (proj1 (filterDetections_threshold _ _ _ _ _ _ _ H1 H2)))).
Defined.

(** C2. On a buffer whose length fits an [int], filterDetections returns
    [detections] exactly when every class field converts and each kept
    record yields its detection: [x], [y], [width] and [height] are the
    truncations of [left * Wo / Wm], [top * Ho / Hm], [(right - left) * Wo / Wm]
    and [(bottom - top) * Ho / Hm], each axis scaled on its own.  For the
    1280x720 image, the 640x640 model and the record
    [320, 180, 640, 360, 0.92, 0] at threshold 0.5 the result is the one
    detection of class 0, confidence 0.92 and box (640, 202, 640, 202). *)
Theorem filterDetections_rescale :
  (forall (results : list float) (confidence_threshold : float)
          (img_width img_height orig_width orig_height : Z)
          (detections : list Detection),
      Z.of_nat (List.length results) <= Int32.max ->
      (filterDetections results confidence_threshold
         img_width img_height orig_width orig_height = Returns detections
       <-> Forall (fun r => Float32.to_int (r_class r) <> None) (records results)
           /\ Forall2
                (fun r d =>
                   confidence d = r_confidence r
                   /\ Float32.to_int (r_class r) = Some (class_id d)
                   /\ Float32.to_int
                        (Float32.div (Float32.mul (r_left r) (Float32.of_int orig_width))
                                     (Float32.of_int img_width))
                      = Some (x (bbox d))
                   /\ Float32.to_int
                        (Float32.div (Float32.mul (r_top r) (Float32.of_int orig_height))
                                     (Float32.of_int img_height))
                      = Some (y (bbox d))
                   /\ Float32.to_int
                        (Float32.div
                           (Float32.mul (Float32.sub (r_right r) (r_left r))
                                        (Float32.of_int orig_width))
                           (Float32.of_int img_width))
                      = Some (width (bbox d))
                   /\ Float32.to_int
                        (Float32.div
                           (Float32.mul (Float32.sub (r_bottom r) (r_top r))
                                        (Float32.of_int orig_height))
                           (Float32.of_int img_height))
                      = Some (height (bbox d))
                   /\ nth_error CLASS_NAMES (Z.to_nat (class_id d))
                      = Some (class_name d)
                   /\ 0 <= class_id d)
                (filter (keeps confidence_threshold) (records results))
                detections))
  /\ filterDetections [f32 320; f32 180; f32 640; f32 360; f0_92; f32 0]
       half 640 640 1280 720
     = Returns [mkDetection f0_92 (mkRect 640 202 640 202) 0 "person"].
Proof.
  split; [|vm_compute; reflexivity].
  intros results th Wm Hm Wo Ho detections Hfit.
  rewrite (filterDetections_Returns results th Wm Hm Wo Ho Hfit detections).
  assert (Heq : forall r d,
             yields Wm Hm Wo Ho r d <->
             confidence d = r_confidence r
             /\ Float32.to_int (r_class r) = Some (class_id d)
             /\ Float32.to_int
                  (Float32.div (Float32.mul (r_left r) (Float32.of_int Wo))
                               (Float32.of_int Wm)) = Some (x (bbox d))
             /\ Float32.to_int
                  (Float32.div (Float32.mul (r_top r) (Float32.of_int Ho))
                               (Float32.of_int Hm)) = Some (y (bbox d))
             /\ Float32.to_int
                  (Float32.div (Float32.mul (Float32.sub (r_right r) (r_left r))
                                            (Float32.of_int Wo))
                               (Float32.of_int Wm)) = Some (width (bbox d))
             /\ Float32.to_int
                  (Float32.div (Float32.mul (Float32.sub (r_bottom r) (r_top r))
                                            (Float32.of_int Ho))
                               (Float32.of_int Hm)) = Some (height (bbox d))
             /\ nth_error CLASS_NAMES (Z.to_nat (class_id d)) = Some (class_name d)
             /\ 0 <= class_id d).
  { intros r d. unfold yields, rescale. split.
    - intros (Hc & Hi & Hx & Hy & Hw & Hh & Hn).
      pose proof (vec_at_range _ _ _ _ Hn) as Hr.
      unfold vec_at in Hn.
      replace (class_id d <? 0) with false in Hn by (symmetry; apply Z.ltb_ge; lia).
      repeat split; try assumption; try (apply defined_Returns; assumption); lia.
    - intros (Hc & Hi & Hx & Hy & Hw & Hh & Hn & H0).
      rewrite Hx, Hy, Hw, Hh. unfold vec_at.
      replace (class_id d <? 0) with false by (symmetry; apply Z.ltb_ge; lia).
      rewrite Hn. repeat split; assumption. }
  split; intros [Hc Hy]; (split; [exact Hc|]);
    (eapply Forall2_impl; [|exact Hy]); intros r d Hrd; apply Heq; exact Hrd.
Qed.

Lemma filterDetections_rescale_witness :
  Z.of_nat (List.length three_records) <= Int32.max
  /\ (filterDetections three_records half 640 640 1280 720
      = Returns three_records_detections
      <-> Forall (fun r => Float32.to_int (r_class r) <> None)
            (records three_records)
          /\ Forall2
               (fun r d =>
                  confidence d = r_confidence r
                  /\ Float32.to_int (r_class r) = Some (class_id d)
                  /\ Float32.to_int
                       (Float32.div (Float32.mul (r_left r) (Float32.of_int 1280))
                                    (Float32.of_int 640))
                     = Some (x (bbox d))
                  /\ Float32.to_int
                       (Float32.div (Float32.mul (r_top r) (Float32.of_int 720))
                                    (Float32.of_int 640))
                     = Some (y (bbox d))
                  /\ Float32.to_int
                       (Float32.div
                          (Float32.mul (Float32.sub (r_right r) (r_left r))
                                       (Float32.of_int 1280))
                          (Float32.of_int 640))
                     = Some (width (bbox d))
                  /\ Float32.to_int
                       (Float32.div
                          (Float32.mul (Float32.sub (r_bottom r) (r_top r))
                                       (Float32.of_int 720))
                          (Float32.of_int 640))
                     = Some (height (bbox d))
                  /\ nth_error CLASS_NAMES (Z.to_nat (class_id d))
                     = Some (class_name d)
                  /\ 0 <= class_id d)
               (filter (keeps half) (records three_records))
               three_records_detections).
Proof.
  assert (H1 : Z.of_nat (List.length three_records) <= Int32.max)
    by (vm_compute; discriminate).
  exact (conj H1 (proj1 filterDetections_rescale _ _ _ _ _ _ _ H1)).
Defined.

(** C3, as the code has it.  A buffer whose length is not a multiple of 6 is
    not refused: filterDetections gives what it gives on the buffer cut to
    its first [L / 6] records, the [L mod 6] floats left over are never
    read, and nothing is thrown. *)
Theorem filterDetections_ignores_tail :
  forall (results : list float) (confidence_threshold : float)
         (img_width img_height orig_width orig_height : Z),
    (List.length results mod 6 <> 0)%nat ->
    filterDetections results confidence_threshold
      img_width img_height orig_width orig_height
    = filterDetections (firstn (6 * (List.length results / 6)) results)
        confidence_threshold img_width img_height orig_width orig_height
    /\ forall what,
        filterDetections results confidence_threshold
          img_width img_height orig_width orig_height <> Throws what.
Proof.
  intros results th Wm Hm Wo Ho _. split.
  - symmetry. apply filterDetections_firstn.
  - intros what. apply filterDetections_not_Throws.
Qed.

Lemma filterDetections_ignores_tail_witness :
  (List.length seven_floats mod 6 <> 0)%nat
  /\ filterDetections seven_floats half 640 640 1280 720
     = filterDetections (firstn (6 * (List.length seven_floats / 6)) seven_floats)
         half 640 640 1280 720.
Proof.
  assert (H1 : (List.length seven_floats mod 6 <> 0)%nat)
    by (vm_compute; discriminate).
  exact (conj H1 (proj1 (filterDetections_ignores_tail _ half 640 640 1280 720 H1))).
Defined.

(** C3, as stated, fails: seven floats, one record and one float over, are
    accepted and give the detection of the first six; nothing is thrown. *)
Lemma filterDetections_seven_floats :
  (List.length seven_floats mod 6 <> 0)%nat
  /\ filterDetections seven_floats half 640 640 1280 720
     = Returns [mkDetection f0_92 (mkRect 640 202 640 202) 0 "person"]
  /\ ~ (exists what,
          filterDetections seven_floats half 640 640 1280 720 = Throws what).
Proof.
  split; [vm_compute; discriminate|].
  split; [vm_compute; reflexivity|].
  intros [what H]. vm_compute in H. discriminate H.
Qed.

(** C4.  The class id of every returned detection is an index of the
    table, [0 <= id < 80], and its name is the table's entry.  At the
    failing input, a kept record of class 80, filterDetections reads
    [CLASS_NAMES[80]], one past the table: the behaviour is undefined, no
    exception is thrown and no detection returned. *)
Theorem filterDetections_class_80 :
  (forall (results : list float) (confidence_threshold : float)
          (img_width img_height orig_width orig_height : Z)
          (detections : list Detection),
      Z.of_nat (List.length results) <= Int32.max ->
      filterDetections results confidence_threshold
        img_width img_height orig_width orig_height = Returns detections ->
      Forall (fun d => 0 <= class_id d < 80
                       /\ nth_error CLASS_NAMES (Z.to_nat (class_id d))
                          = Some (class_name d))
        detections)
  /\ List.length CLASS_NAMES = 80%nat
  /\ Float32.to_int (f32 80) = Some 80
  /\ vec_at CLASS_NAMES 80 = Undefined
  /\ filterDetections class_80 half 640 640 1280 720 = Undefined.
Proof.
  split; [|repeat split; vm_compute; reflexivity].
  intros results th Wm Hm Wo Ho detections Hfit H.
  apply filterDetections_Returns in H as [_ Hy]; [|exact Hfit].
  induction Hy as [|r d kept detections Hrd _ IH]; constructor.
  - exact (yields_class_id _ _ _ _ _ _ Hrd).
  - exact IH.
Qed.

Lemma filterDetections_class_80_witness :
  Z.of_nat (List.length three_records) <= Int32.max
  /\ filterDetections three_records half 640 640 1280 720
     = Returns three_records_detections
  /\ Forall (fun d => 0 <= class_id d < 80
                      /\ nth_error CLASS_NAMES (Z.to_nat (class_id d))
                         = Some (class_name d))
       three_records_detections.
Proof.
  assert (H1 : Z.of_nat (List.length three_records) <= Int32.max)
    by (vm_compute; discriminate).
  assert (H2 : filterDetections three_records half 640 640 1280 720
               = Returns three_records_detections) by (vm_compute; reflexivity).
  exact (conj H1 (conj H2
           (proj1 filterDetections_class_80 _ _ _ _ _ _ _ H1 H2))).
Defined.

(** C6. On a buffer whose length fits an [int], the returned detections come
    from records at strictly increasing positions of the buffer: detection
    number [j] is the one yielded by the [j]-th kept record. *)
Theorem filterDetections_order :
  forall (results : list float) (confidence_threshold : float)
         (img_width img_height orig_width orig_height : Z)
         (detections : list Detection),
    Z.of_nat (List.length results) <= Int32.max ->
    filterDetections results confidence_threshold
      img_width img_height orig_width orig_height = Returns detections ->
    exists positions : list nat,
      StronglySorted Nat.lt positions
      /\ Forall2
           (fun i d =>
              exists r, (nth_error (records results) i = Some r
                         /\ keeps confidence_threshold r = true)
                        /\ yields img_width img_height orig_width orig_height r d)
           positions detections.
Proof.
  intros results th Wm Hm Wo Ho detections Hfit H.
  apply filterDetections_Returns in H as [_ Hy]; [|exact Hfit].
  destruct (filter_positions _ (keeps th) (records results)) as (positions & Hs & Hp).
  exists positions. split; [exact Hs|].
  exact (Forall2_compose _ _ _ _ _ _ _ Hp _ Hy).
Qed.

Lemma filterDetections_order_witness :
  Z.of_nat (List.length three_records) <= Int32.max
  /\ filterDetections three_records half 640 640 1280 720
     = Returns three_records_detections
  /\ exists positions : list nat,
      StronglySorted Nat.lt positions
      /\ Forall2
           (fun i d =>
              exists r, (nth_error (records three_records) i = Some r
                         /\ keeps half r = true)
                        /\ yields 640 640 1280 720 r d)
           positions three_records_detections.
Proof.
  assert (H1 : Z.of_nat (List.length three_records) <= Int32.max)
    by (vm_compute; discriminate).
  assert (H2 : filterDetections three_records half 640 640 1280 720
               = Returns three_records_detections) by (vm_compute; reflexivity).
  exact (conj H1 (conj H2 (filterDetections_order _ _ _ _ _ _ _ H1 H2))).
Defined.

(** C5, as the code has it.  When the image decodes and [cv::resize] gives
    the three channels of
    the size asked for, preprocessImage returns [3 * H * W] floats in
    channel-major order: plane [c] of the resized image fills positions
    [c * H * W .. (c + 1) * H * W - 1], pixel by pixel, not interleaved, each
    value being the channel value times the float [1/255], which is the
    channel value divided by 255 up to a relative error of [2^-23], one unit
    in the last place of a [float].  When
    the resized image is of one colour, as [cv::resize] makes it from an
    image of one colour, each plane is filled with that colour's value for
    the plane's channel. *)
Theorem preprocessImage_channel_major :
  forall (W : World) (image_path : string) (batch channels H Wd : Z)
         (log : list event) (resized : Mat),
    empty (imread W image_path) = false ->
    resize W (imread W image_path) (Int32.wrap H) (Int32.wrap Wd) = Returns resized ->
    Z.of_nat (List.length (data resized)) = 3 * (H * Wd) ->
    H * Wd <= Int64.max ->
    exists tensor : list float,
      preprocessImage W image_path [batch; channels; H; Wd] log
      = (log ++ [Imread image_path; Resize (Int32.wrap H) (Int32.wrap Wd)],
         Returns (tensor, cols (imread W image_path), rows (imread W image_path)))
      /\ Z.of_nat (List.length tensor) = 3 * H * Wd
      /\ tensor = map normalize (plane 0 (data resized))
                  ++ map normalize (plane 1 (data resized))
                  ++ map normalize (plane 2 (data resized))
      /\ (forall c i : nat,
             (c < 3)%nat -> (i < Z.to_nat (H * Wd))%nat ->
             nth_error tensor (c * Z.to_nat (H * Wd) + i)
             = option_map normalize (nth_error (data resized) (3 * i + c)))
      /\ (forall c0 c1 c2 : Z,
             data resized = solid c0 c1 c2 (Z.to_nat (H * Wd)) ->
             tensor = repeat (normalize c0) (Z.to_nat (H * Wd))
                      ++ repeat (normalize c1) (Z.to_nat (H * Wd))
                      ++ repeat (normalize c2) (Z.to_nat (H * Wd)))
      /\ (forall v : Z, 0 <= v <= 255 -> Float32.near (normalize v) v 255 = true).
Proof.
  intros W image_path batch channels H Wd log resized Hne Hrs Hlen Hmax.
  exists (channel_major (convertTo (data resized) alpha_1_255)).
  assert (Hmap : convertTo (data resized) alpha_1_255 = map normalize (data resized))
    by reflexivity.
  assert (Hl : List.length (convertTo (data resized) alpha_1_255)
               = (3 * Z.to_nat (H * Wd))%nat)
    by (rewrite Hmap, length_map; lia).
  assert (Hplanes : channel_major (convertTo (data resized) alpha_1_255)
                    = map normalize (plane 0 (data resized))
                      ++ map normalize (plane 1 (data resized))
                      ++ map normalize (plane 2 (data resized))).
  { unfold channel_major. rewrite Hmap, !plane_map. reflexivity. }
  split; [exact (preprocessImage_Returns W image_path batch channels H Wd log
                   resized Hne Hrs Hlen Hmax)|].
  split.
  { unfold channel_major. rewrite !length_app.
    pose proof (plane_length _ 0%nat (convertTo (data resized) alpha_1_255)).
    pose proof (plane_length _ 1%nat (convertTo (data resized) alpha_1_255)).
    pose proof (plane_length _ 2%nat (convertTo (data resized) alpha_1_255)).
    lia. }
  split; [exact Hplanes|].
  split.
  { intros c i Hc Hi.
    rewrite (channel_major_nth_error _ _ _ Hl c i Hc Hi), Hmap.
    apply nth_error_map. }
  split.
  { intros c0 c1 c2 Hsolid. rewrite Hplanes, Hsolid, !plane_solid, !map_repeat.
    reflexivity. }
  exact normalize_near.
Qed.

Lemma preprocessImage_channel_major_witness :
  empty (imread (test_world one_pixel []) "bus.jpg") = false
  /\ resize (test_world one_pixel []) (imread (test_world one_pixel []) "bus.jpg")
       (Int32.wrap 2) (Int32.wrap 2)
     = Returns (mkMat 2 2 (solid 0 51 255 4))
  /\ Z.of_nat (List.length (data (mkMat 2 2 (solid 0 51 255 4)))) = 3 * (2 * 2)
  /\ 2 * 2 <= Int64.max
  /\ exists tensor : list float,
      preprocessImage (test_world one_pixel []) "bus.jpg" [1; 3; 2; 2] []
      = ([] ++ [Imread "bus.jpg"; Resize (Int32.wrap 2) (Int32.wrap 2)],
         Returns (tensor, 1, 1))
      /\ Z.of_nat (List.length tensor) = 3 * 2 * 2.
Proof.
  assert (H1 : empty (imread (test_world one_pixel []) "bus.jpg") = false)
    by reflexivity.
  assert (H2 : resize (test_world one_pixel [])
                 (imread (test_world one_pixel []) "bus.jpg")
                 (Int32.wrap 2) (Int32.wrap 2)
               = Returns (mkMat 2 2 (solid 0 51 255 4))) by reflexivity.
  assert (H3 : Z.of_nat (List.length (data (mkMat 2 2 (solid 0 51 255 4))))
               = 3 * (2 * 2)) by reflexivity.
  assert (H4 : 2 * 2 <= Int64.max) by (vm_compute; discriminate).
  refine (conj H1 (conj H2 (conj H3 (conj H4 _)))).
  destruct (preprocessImage_channel_major (test_world one_pixel []) "bus.jpg"
              1 3 2 2 [] _ H1 H2 H3 H4) as (tensor & Hrun & Hlen & _).
  exists tensor. exact (conj Hrun Hlen).
Defined.

(** C5, as stated, fails: the values are not the channel values divided by
    255.  For an image of the colour (0, 51, 255) resized to 2 x 2, the
    plane of channel 1 holds the float [13421774 * 2^-26], the product of
    51 and the float [1/255]; the float quotient [51 / 255] is
    [13421773 * 2^-26], one unit in the last place below it, and the
    rational [51/255] is neither.  The stored float differs from the float
    quotient for 126 of the 256 channel values. *)
Lemma preprocessImage_not_quotient :
  snd (preprocessImage (test_world one_pixel []) "bus.jpg" [1; 3; 2; 2] [])
  = Returns (repeat (S754_zero false) 4
             ++ repeat (S754_finite false 13421774 (-26)) 4
             ++ repeat (S754_finite false 8388608 (-23)) 4, 1, 1)
  /\ normalize 51 = S754_finite false 13421774 (-26)
  /\ Float32.div (Float32.of_int 51) (Float32.of_int 255)
     = S754_finite false 13421773 (-26)
  /\ normalize 51 <> Float32.div (Float32.of_int 51) (Float32.of_int 255)
  /\ Float32.exact (normalize 51) = Some (13421774 # 67108864)%Q
  /\ ~ (13421774 # 67108864 == 51 # 255)%Q
  /\ List.length
       (filter (fun v =>
                  match SFcompare (normalize v)
                          (Float32.div (Float32.of_int v) (Float32.of_int 255)) with
                  | Some Eq => false
                  | _ => true
                  end)
          (map Z.of_nat (seq 0 256)))
     = 126%nat.
Proof.
  split; [vm_compute; reflexivity|].
  split; [vm_compute; reflexivity|].
  split; [vm_compute; reflexivity|].
  split; [intros H; vm_compute in H; discriminate H|].
  split; [vm_compute; reflexivity|].
  split; [intros H; vm_compute in H; discriminate H|].
  vm_compute. reflexivity.
Qed.

(** ** main *)

Lemma report_all_log (W : World) (detections : list Detection) :
  forall (image : Canvas) (log log' : list event) (o : outcome Canvas),
    report_all W image detections log = (log', o) ->
    exists printed : list Detection,
      log' = log ++ map (fun d => Cout (line W d)) printed
      /\ (forall image', o = Returns image' -> printed = detections).
Proof.
  induction detections as [|d detections IH]; intros image log log' o H.
  - cbn in H. injection H as <- <-. exists []. rewrite app_nil_r.
    split; [reflexivity|]. intros; reflexivity.
  - cbn [report_all] in H. unfold io_bind at 1 in H.
    destruct (report W image d log) as [log1 o1] eqn:E.
    assert (Hlog1 : log1 = log ++ [Cout (line W d)]).
    { unfold report, io_bind, emit, lift, ret in E.
      destruct (getTextSize W _) as [[lw lh] bl].
      repeat match type of E with
             | context [Int32.checked ?z] => destruct (Int32.checked z)
             end; injection E as <- _; reflexivity. }
    destruct o1 as [image1|w|].
    + apply IH in H as (printed & -> & Hp). exists (d :: printed). split.
      * rewrite Hlog1, <- app_assoc. reflexivity.
      * intros image' Ho. rewrite (Hp image' Ho). reflexivity.
    + injection H as <- <-. exists [d]. split; [exact Hlog1|]. discriminate.
    + injection H as <- <-. exists [d]. split; [exact Hlog1|]. discriminate.
Qed.

(** C8. With any number of arguments other than two, main writes the usage
    line to standard error and returns 1; nothing else happens: no model is
    loaded, no image read, nothing written. *)
Theorem main_wrong_argument_count :
  forall (W : World) (program : string) (arguments : list string),
    List.length arguments <> 2%nat ->
    main W program arguments
    = ([Cerr ("Usage: " ++ program ++ " <model_path> <image_path>" ++ endl)],
       Returns 1).
Proof.
  intros W program arguments Hargc. unfold main.
  replace (Z.of_nat (List.length (program :: arguments)) =? 3) with false
    by (symmetry; apply Z.eqb_neq; cbn [List.length]; lia).
  reflexivity.
Qed.

Lemma main_wrong_argument_count_witness :
  List.length ["yolov10n.onnx"]%string <> 2%nat
  /\ main (test_world one_pixel []) "yolov10cpp" ["yolov10n.onnx"]%string
     = ([Cerr ("Usage: " ++ "yolov10cpp" ++ " <model_path> <image_path>" ++ endl)],
        Returns 1).
Proof.
  assert (H1 : List.length ["yolov10n.onnx"]%string <> 2%nat)
    by (simpl; lia).
  exact (conj H1 (main_wrong_argument_count (test_world one_pixel []) _ _ H1)).
Defined.

(** A run whose model returns an empty buffer. *)
Lemma main_no_detection :
  forall (W : World) (program model_path image_path : string)
         (session : Session W) (resized : Mat) (written : bool),
    create_env W = Returns tt ->
    create_session W model_path = Returns session ->
    empty (imread W image_path) = false ->
    resize W (imread W image_path) 640 640 = Returns resized ->
    Z.of_nat (List.length (data resized)) = 3 * (640 * 640) ->
    session_run W session (channel_major (convertTo (data resized) alpha_1_255))
      [1; 3; 640; 640] = Returns [] ->
    imwrite W "result.jpg" (mkCanvas (imread W image_path) []) = Returns written ->
    main W program [model_path; image_path]
    = ([ SessionCreate model_path;
         Imread image_path;
         Resize 640 640;
         SessionRun [1; 3; 640; 640]
           (channel_major (convertTo (data resized) alpha_1_255));
         Imread image_path;
         Imwrite "result.jpg" (mkCanvas (imread W image_path) []) ],
       Returns 0).
Proof.
  intros W program model_path image_path session resized written
         He Hs Hne Hrs Hlen Hrun Hw.
  change (Int32.wrap 640) with 640 in *.
  unfold main. cbn [List.length Z.of_nat Pos.of_succ_nat Pos.succ Z.eqb Pos.eqb negb nth].
  unfold try_catch, run, io_bind, emit, lift, ret. cbv beta iota.
  rewrite He. cbv beta iota. rewrite Hs. cbv beta iota.
  assert (Hmax : 640 * 640 <= Int64.max) by (vm_compute; discriminate).
  pose proof (preprocessImage_Returns W image_path 1 3 640 640
                ([] ++ [SessionCreate model_path]) resized Hne Hrs Hlen Hmax) as Hpre.
  change (Int32.wrap 640) with 640 in Hpre.
  rewrite Hpre. cbv beta iota. rewrite Hrun. cbv beta iota.
  change (vec_at [1; 3; 640; 640] 2) with (Returns 640).
  change (vec_at [1; 3; 640; 640] 3) with (Returns 640).
  cbv beta iota.
  change (filterDetections [] (Float32.ratio 1 2) (Int32.wrap 640) (Int32.wrap 640)
            (cols (imread W image_path)) (rows (imread W image_path)))
    with (@Returns (list Detection) []).
  cbv beta iota. cbn [report_all]. unfold ret. rewrite Hw. reflexivity.
Qed.

(** C7. An empty raw buffer gives no detection, and a run whose model
    returns an empty buffer prints nothing, draws nothing, hands the image
    as it was read to [cv::imwrite] under the name [result.jpg], and returns
    0 when that call returns. *)
Theorem main_empty_output :
  (forall (confidence_threshold : float)
          (img_width img_height orig_width orig_height : Z),
      filterDetections [] confidence_threshold
        img_width img_height orig_width orig_height = Returns [])
  /\ forall (W : World) (program model_path image_path : string)
            (session : Session W) (resized : Mat) (written : bool),
      create_env W = Returns tt ->
      create_session W model_path = Returns session ->
      empty (imread W image_path) = false ->
      resize W (imread W image_path) 640 640 = Returns resized ->
      Z.of_nat (List.length (data resized)) = 3 * (640 * 640) ->
      session_run W session (channel_major (convertTo (data resized) alpha_1_255))
        [1; 3; 640; 640] = Returns [] ->
      imwrite W "result.jpg" (mkCanvas (imread W image_path) []) = Returns written ->
      main W program [model_path; image_path]
      = ([ SessionCreate model_path;
           Imread image_path;
           Resize 640 640;
           SessionRun [1; 3; 640; 640]
             (channel_major (convertTo (data resized) alpha_1_255));
           Imread image_path;
           Imwrite "result.jpg" (mkCanvas (imread W image_path) []) ],
         Returns 0).
Proof.
  split; [reflexivity|exact main_no_detection].
Qed.

Lemma main_empty_output_witness :
  create_env (test_world one_pixel []) = Returns tt
  /\ create_session (test_world one_pixel []) "yolov10n.onnx" = Returns tt
  /\ empty (imread (test_world one_pixel []) "bus.jpg") = false
  /\ resize (test_world one_pixel []) (imread (test_world one_pixel []) "bus.jpg")
       640 640
     = Returns (mkMat 640 640 (solid 0 51 255 (Z.to_nat (640 * 640))))
  /\ Z.of_nat (List.length (solid 0 51 255 (Z.to_nat (640 * 640)))) = 3 * (640 * 640)
  /\ main (test_world one_pixel []) "yolov10cpp" ["yolov10n.onnx"; "bus.jpg"]%string
     = ([ SessionCreate "yolov10n.onnx";
          Imread "bus.jpg";
          Resize 640 640;
          SessionRun [1; 3; 640; 640]
            (channel_major
               (convertTo (solid 0 51 255 (Z.to_nat (640 * 640))) alpha_1_255));
          Imread "bus.jpg";
          Imwrite "result.jpg" (mkCanvas one_pixel []) ],
        Returns 0).
Proof.
  assert (H0 : create_env (test_world one_pixel []) = Returns tt) by reflexivity.
  assert (H1 : create_session (test_world one_pixel []) "yolov10n.onnx" = Returns tt)
    by reflexivity.
  assert (H2 : empty (imread (test_world one_pixel []) "bus.jpg") = false)
    by reflexivity.
  assert (H3 : resize (test_world one_pixel [])
                 (imread (test_world one_pixel []) "bus.jpg") 640 640
               = Returns (mkMat 640 640 (solid 0 51 255 (Z.to_nat (640 * 640)))))
    by reflexivity.
  assert (H4 : Z.of_nat (List.length (solid 0 51 255 (Z.to_nat (640 * 640))))
               = 3 * (640 * 640))
    by (rewrite solid_length; lia).
  exact (conj H0 (conj H1 (conj H2 (conj H3 (conj H4
    (proj2 main_empty_output (test_world one_pixel [])
       "yolov10cpp"%string "yolov10n.onnx"%string "bus.jpg"%string tt
       (mkMat 640 640 (solid 0 51 255 (Z.to_nat (640 * 640)))) true
       H0 H1 H2 H3 H4 eq_refl eq_refl)))))).
Defined.

Lemma preprocessImage_cases (W : World) (image_path : string)
      (log log' : list event) (o : outcome (list float * Z * Z)) :
  preprocessImage W image_path [1; 3; 640; 640] log = (log', o) ->
  (exists tail, log' = log ++ tail /\ Forall fixed_event tail)
  /\ (forall tensor orig_width orig_height,
         o = Returns (tensor, orig_width, orig_height) ->
         log' = log ++ [Imread image_path; Resize 640 640]
         /\ orig_width = cols (imread W image_path)
         /\ orig_height = rows (imread W image_path)).
Proof.
  unfold preprocessImage, io_bind, emit, lift, ret.
  change (vec_at [1; 3; 640; 640] 2) with (Returns 640).
  change (vec_at [1; 3; 640; 640] 3) with (Returns 640).
  cbv beta iota. change (Int32.wrap 640) with 640. intros H.
  assert (Htail : Forall fixed_event [Imread image_path; Resize 640 640])
    by (repeat constructor).
  destruct (empty (imread W image_path)).
  { injection H as <- <-. split; [|discriminate].
    exists [Imread image_path]. split; [reflexivity|repeat constructor]. }
  destruct (resize W (imread W image_path) 640 640) as [resized|w|];
    cbv beta iota in H.
  - destruct (insert_planes _ _ _ _) as [tensor|w|]; cbv beta iota in H;
      injection H as <- <-; rewrite <- app_assoc;
      (split; [exists [Imread image_path; Resize 640 640]; split;
                 [reflexivity|exact Htail]|]);
      try discriminate.
    intros t ow oh Ht. injection Ht as <- <- <-. repeat split.
  - injection H as <- <-. rewrite <- app_assoc.
    split; [|discriminate].
    exists [Imread image_path; Resize 640 640]. split; [reflexivity|exact Htail].
  - injection H as <- <-. rewrite <- app_assoc.
    split; [|discriminate].
    exists [Imread image_path; Resize 640 640]. split; [reflexivity|exact Htail].
Qed.

Lemma fixed_event_lines (W : World) (printed : list Detection) :
  Forall fixed_event (map (fun d => Cout (line W d)) printed).
Proof. apply Forall_map, Forall_forall. intros d _. exact I. Qed.

(** Every run of the statements inside [try], whatever its outcome. *)
Lemma run_cases (W : World) (model_path image_path : string)
      (log : list event) (o : outcome unit) :
  run W model_path image_path [] = (log, o) ->
  Forall fixed_event log
  /\ (o = Returns tt ->
      exists (session : Session W) (tensor results : list float)
             (detections : list Detection) (image : Canvas),
        create_session W model_path = Returns session
        /\ session_run W session tensor [1; 3; 640; 640] = Returns results
        /\ filterDetections results (Float32.ratio 1 2) 640 640
             (cols (imread W image_path)) (rows (imread W image_path))
           = Returns detections
        /\ log = [ SessionCreate model_path; Imread image_path; Resize 640 640;
                   SessionRun [1; 3; 640; 640] tensor; Imread image_path ]
                 ++ map (fun d => Cout (line W d)) detections
                 ++ [Imwrite "result.jpg" image]).
Proof.
  unfold run, io_bind at 1 2, emit at 1, lift at 1. cbv beta iota. intros H.
  destruct (create_session W model_path) as [session|w|] eqn:Hs;
    cbv beta iota in H;
    try (injection H as <- <-; split; [repeat constructor|discriminate]).
  unfold io_bind at 1 in H.
  destruct (preprocessImage W image_path [1; 3; 640; 640]
              ([] ++ [SessionCreate model_path])) as [log1 o1] eqn:Hp.
  apply preprocessImage_cases in Hp as [(tail & Hlog1 & Htail) Hret].
  assert (F1 : Forall fixed_event log1).
  { rewrite Hlog1. apply Forall_app. split; [repeat constructor|exact Htail]. }
  destruct o1 as [[[tensor ow] oh]|w|];
    try (injection H as <- <-; split; [exact F1|discriminate]).
  destruct (Hret _ _ _ eq_refl) as (Hlog & -> & ->). clear Hret Hlog1 Htail.
  unfold io_bind, emit, lift, ret in H. cbv beta iota in H.
  change (vec_at [1; 3; 640; 640] 2) with (Returns 640) in H.
  change (vec_at [1; 3; 640; 640] 3) with (Returns 640) in H.
  cbv beta iota in H. change (Int32.wrap 640) with 640 in H.
  assert (F2 : Forall fixed_event (log1 ++ [SessionRun [1; 3; 640; 640] tensor])).
  { apply Forall_app. split; [exact F1|repeat constructor]. }
  destruct (session_run W session tensor [1; 3; 640; 640]) as [results|w|] eqn:Hr;
    cbv beta iota in H;
    try (injection H as <- <-; split; [exact F2|discriminate]).
  assert (F3 : Forall fixed_event
                 ((log1 ++ [SessionRun [1; 3; 640; 640] tensor])
                  ++ [Imread image_path])).
  { apply Forall_app. split; [exact F2|repeat constructor]. }
  destruct (filterDetections results (Float32.ratio 1 2) 640 640
              (cols (imread W image_path)) (rows (imread W image_path)))
    as [detections|w|] eqn:Hf; cbv beta iota in H;
    try (injection H as <- <-; split; [exact F3|discriminate]).
  destruct (report_all W (mkCanvas (imread W image_path) []) detections
              ((log1 ++ [SessionRun [1; 3; 640; 640] tensor])
               ++ [Imread image_path])) as [log2 o2] eqn:Hrep.
  apply report_all_log in Hrep as (printed & Hlog2 & Hprinted).
  assert (F4 : Forall fixed_event log2).
  { rewrite Hlog2. apply Forall_app. split; [exact F3|apply fixed_event_lines]. }
  destruct o2 as [image|w|];
    try (injection H as <- <-; split; [exact F4|discriminate]).
  assert (F5 : Forall fixed_event (log2 ++ [Imwrite "result.jpg" image])).
  { apply Forall_app. split; [exact F4|repeat constructor]. }
  destruct (imwrite W "result.jpg" image) as [written|w|];
    injection H as <- <-; (split; [exact F5|]); try discriminate.
  intros _. exists session, tensor, results, detections, image.
  repeat split; try assumption.
  rewrite Hlog2, (Hprinted image eq_refl), Hlog.
  repeat rewrite <- app_assoc. reflexivity.
Qed.

(** C10. In every run the size given to [cv::resize] is 640x640 and the
    shape given to the model is {1, 3, 640, 640}; a run that returns 0 has
    printed the detections filterDetections returns at the threshold 0.5
    for the model size 640x640; and the command line only gives the two
    paths: the run is the same under any program name. *)
Theorem main_fixed_parameters :
  forall (W : World) (program : string) (arguments : list string)
         (log : list event) (status : outcome Z),
    main W program arguments = (log, status) ->
    (forall width height, In (Resize width height) log ->
                          width = 640 /\ height = 640)
    /\ (forall shape tensor, In (SessionRun shape tensor) log ->
                             shape = [1; 3; 640; 640])
    /\ (status = Returns 0 ->
        exists (model_path image_path : string)
               (session : Session W) (tensor results : list float)
               (detections : list Detection) (image : Canvas),
          arguments = [model_path; image_path]
          /\ session_run W session tensor [1; 3; 640; 640] = Returns results
          /\ filterDetections results (Float32.ratio 1 2) 640 640
               (cols (imread W image_path)) (rows (imread W image_path))
             = Returns detections
          /\ log = [ SessionCreate model_path; Imread image_path; Resize 640 640;
                     SessionRun [1; 3; 640; 640] tensor; Imread image_path ]
                   ++ map (fun d => Cout (line W d)) detections
                   ++ [Imwrite "result.jpg" image])
    /\ (forall program' : string,
           List.length arguments = 2%nat ->
           main W program' arguments = (log, status))
    /\ Float32.ratio 1 2 = S754_finite false (2 ^ 23) (- 24)
    /\ Float32.exact (Float32.ratio 1 2) = Some (Qmake (2 ^ 23) (2 ^ 24)).
Proof.
  intros W program arguments log status Hmain.
  assert (Hfixed : Forall fixed_event log
                   /\ (status = Returns 0 ->
                       exists model_path image_path,
                         arguments = [model_path; image_path]
                         /\ run W model_path image_path [] = (log, Returns tt))).
  { unfold main in Hmain.
    destruct (negb (Z.of_nat (List.length (program :: arguments)) =? 3)) eqn:Hargc.
    - unfold io_bind, emit, ret in Hmain. cbv beta iota in Hmain.
      injection Hmain as <- <-.
      split; [repeat constructor|discriminate].
    - apply negb_false_iff, Z.eqb_eq in Hargc. cbn [List.length] in Hargc.
      destruct arguments as [|model_path [|image_path [|extra arguments]]];
        try (cbn [List.length] in Hargc; lia).
      cbn [nth] in Hmain.
      unfold try_catch, io_bind at 1 2, lift at 1 in Hmain.
      destruct (create_env W) as [[]|w|];
        try (injection Hmain as <- <-; split; [constructor|discriminate]).
      destruct (run W model_path image_path []) as [log1 o1] eqn:Hrun.
      pose proof (proj1 (run_cases _ _ _ _ _ Hrun)) as F.
      destruct o1 as [[]|w|]; unfold io_bind, emit, ret in Hmain;
        cbv beta iota in Hmain; injection Hmain as <- <-.
      + split; [exact F|]. intros _. exists model_path, image_path.
        split; [reflexivity|exact Hrun].
      + split; [|discriminate].
        apply Forall_app. split; [exact F|repeat constructor].
      + split; [exact F|discriminate]. }
  destruct Hfixed as [F Hok]. rewrite Forall_forall in F.
  split; [intros width height Hin; exact (F _ Hin)|].
  split; [intros shape tensor Hin; exact (F _ Hin)|].
  split.
  { intros Hs. destruct (Hok Hs) as (model_path & image_path & Hargs & Hrun).
    apply run_cases in Hrun as [_ Hrun].
    destruct (Hrun eq_refl) as (session & tensor & results & detections & image
                                & _ & Hr & Hf & Hlog).
    exists model_path, image_path, session, tensor, results, detections, image.
    repeat split; assumption. }
  split.
  { intros program' Hl. rewrite <- Hmain. unfold main. cbn [List.length].
    rewrite Hl. reflexivity. }
  split; vm_compute; reflexivity.
Qed.

Lemma main_fixed_parameters_witness :
  main (test_world one_pixel []) "yolov10cpp" ["yolov10n.onnx"; "bus.jpg"]%string
  = ([ SessionCreate "yolov10n.onnx";
       Imread "bus.jpg";
       Resize 640 640;
       SessionRun [1; 3; 640; 640]
         (channel_major
            (convertTo (solid 0 51 255 (Z.to_nat (640 * 640))) alpha_1_255));
       Imread "bus.jpg";
       Imwrite "result.jpg" (mkCanvas one_pixel []) ],
     Returns 0)
  /\ (forall width height,
         In (Resize width height)
            [ SessionCreate "yolov10n.onnx";
              Imread "bus.jpg";
              Resize 640 640;
              SessionRun [1; 3; 640; 640]
                (channel_major
                   (convertTo (solid 0 51 255 (Z.to_nat (640 * 640))) alpha_1_255));
              Imread "bus.jpg";
              Imwrite "result.jpg" (mkCanvas one_pixel []) ] ->
         width = 640 /\ height = 640).
Proof.
  assert (H : main (test_world one_pixel [])
                "yolov10cpp" ["yolov10n.onnx"; "bus.jpg"]%string
              = ([ SessionCreate "yolov10n.onnx";
                   Imread "bus.jpg";
                   Resize 640 640;
                   SessionRun [1; 3; 640; 640]
                     (channel_major
                        (convertTo (solid 0 51 255 (Z.to_nat (640 * 640)))
                           alpha_1_255));
                   Imread "bus.jpg";
                   Imwrite "result.jpg" (mkCanvas one_pixel []) ],
                 Returns 0)).
  { refine (main_no_detection (test_world one_pixel [])
              "yolov10cpp"%string "yolov10n.onnx"%string "bus.jpg"%string tt
              (mkMat 640 640 (solid 0 51 255 (Z.to_nat (640 * 640)))) true
              eq_refl eq_refl eq_refl eq_refl _ eq_refl eq_refl).
    cbn [data]. rewrite solid_length. lia. }
  exact (conj H (proj1 (main_fixed_parameters _ _ _ _ _ H))).
Defined.

(** C9, as the code has it.  filterDetections neither clamps nor checks the
    box: the four fields of every returned detection are the truncated
    scaled values themselves and nothing is thrown.  A kept record with
    [right < left] (or [bottom < top]), the image and model sizes being
    positive, gets a width (or height) that is never positive: negative, or
    zero when the scaled difference truncates to zero.  Negative
    coordinates and boxes reaching beyond the image are returned as they
    are. *)
Theorem filterDetections_unclamped :
  (forall (results : list float) (confidence_threshold : float)
          (img_width img_height orig_width orig_height : Z)
          (detections : list Detection),
      Z.of_nat (List.length results) <= Int32.max ->
      filterDetections results confidence_threshold
        img_width img_height orig_width orig_height = Returns detections ->
      Forall2
        (fun r d =>
           rescale (r_left r) orig_width img_width = Returns (x (bbox d))
           /\ rescale (r_top r) orig_height img_height = Returns (y (bbox d))
           /\ rescale (Float32.sub (r_right r) (r_left r)) orig_width img_width
              = Returns (width (bbox d))
           /\ rescale (Float32.sub (r_bottom r) (r_top r)) orig_height img_height
              = Returns (height (bbox d))
           /\ (Float32.valid (r_right r) = true -> Float32.valid (r_left r) = true ->
               Float32.lt (r_right r) (r_left r) = true ->
               0 < orig_width -> 0 < img_width -> width (bbox d) <= 0)
           /\ (Float32.valid (r_bottom r) = true -> Float32.valid (r_top r) = true ->
               Float32.lt (r_bottom r) (r_top r) = true ->
               0 < orig_height -> 0 < img_height -> height (bbox d) <= 0))
        (filter (keeps confidence_threshold) (records results)) detections)
  /\ (forall (results : list float) (confidence_threshold : float)
             (img_width img_height orig_width orig_height : Z) (what : string),
         filterDetections results confidence_threshold
           img_width img_height orig_width orig_height <> Throws what)
  /\ filterDetections reversed_box half 640 640 640 640
     = Returns [mkDetection f0_92 (mkRect 300 200 (-200) (-150)) 0 "person"]
  /\ filterDetections outside_box half 640 640 640 640
     = Returns [mkDetection f0_92 (mkRect (-50) (-8) 2050 3008) 0 "person"].
Proof.
  split; [|split; [|split; vm_compute; reflexivity]].
  - intros results th Wm Hm Wo Ho detections Hfit H.
    apply filterDetections_Returns in H as [_ Hy]; [|exact Hfit].
    eapply Forall2_impl; [|exact Hy].
    intros r d (_ & _ & Hx & Hyy & Hw & Hh & _).
    repeat split; try assumption.
    + intros Vr Vl Hlt HWo HWm. exact (rescale_reversed _ _ _ _ _ Vr Vl Hlt HWo HWm Hw).
    + intros Vb Vt Hlt HHo HHm. exact (rescale_reversed _ _ _ _ _ Vb Vt Hlt HHo HHm Hh).
  - intros. apply filterDetections_not_Throws.
Qed.

Lemma filterDetections_unclamped_witness :
  Z.of_nat (List.length reversed_box) <= Int32.max
  /\ filterDetections reversed_box half 640 640 640 640
     = Returns [mkDetection f0_92 (mkRect 300 200 (-200) (-150)) 0 "person"]
  /\ Forall2
       (fun r d =>
          rescale (r_left r) 640 640 = Returns (x (bbox d))
          /\ rescale (r_top r) 640 640 = Returns (y (bbox d))
          /\ rescale (Float32.sub (r_right r) (r_left r)) 640 640
             = Returns (width (bbox d))
          /\ rescale (Float32.sub (r_bottom r) (r_top r)) 640 640
             = Returns (height (bbox d))
          /\ (Float32.valid (r_right r) = true -> Float32.valid (r_left r) = true ->
              Float32.lt (r_right r) (r_left r) = true ->
              0 < 640 -> 0 < 640 -> width (bbox d) <= 0)
          /\ (Float32.valid (r_bottom r) = true -> Float32.valid (r_top r) = true ->
              Float32.lt (r_bottom r) (r_top r) = true ->
              0 < 640 -> 0 < 640 -> height (bbox d) <= 0))
       (filter (keeps half) (records reversed_box))
       [mkDetection f0_92 (mkRect 300 200 (-200) (-150)) 0 "person"]
  /\ Float32.valid (f32 100) = true /\ Float32.valid (f32 300) = true
  /\ Float32.lt (f32 100) (f32 300) = true.
Proof.
  assert (H1 : Z.of_nat (List.length reversed_box) <= Int32.max)
    by (vm_compute; discriminate).
  assert (H2 : filterDetections reversed_box half 640 640 640 640
               = Returns [mkDetection f0_92 (mkRect 300 200 (-200) (-150)) 0 "person"])
    by (vm_compute; reflexivity).
  refine (conj H1 (conj H2 (conj
            (proj1 filterDetections_unclamped _ _ _ _ _ _ _ H1 H2) _))).
  repeat split; vm_compute; reflexivity.
Defined.

(** C9, as stated, fails: the record [1, 0, 0.5, 0, 0.92, 0] has
    [right < left], is kept, and its detection has width 0, not a negative
    width. *)
Lemma filterDetections_reversed_half_pixel :
  Float32.lt half (f32 1) = true
  /\ reversed_half_pixel = [f32 1; f32 0; half; f32 0; f0_92; f32 0]
  /\ filterDetections reversed_half_pixel half 640 640 640 640
     = Returns [mkDetection f0_92 (mkRect 1 0 0 0) 0 "person"]
  /\ ~ (width (mkRect 1 0 0 0) < 0).
Proof.
  split; [vm_compute; reflexivity|].
  split; [reflexivity|].
  split; [vm_compute; reflexivity|].
  cbn [width]. lia.
Qed.

(** * Further properties of filterDetections *)

(** ** The order of floats *)

Lemma ge_trans (a b c : float) :
  Float32.ge a b = true -> Float32.ge b c = true -> Float32.ge a c = true.
Proof.
  unfold Float32.ge.
  destruct a as [sa|sa| |sa ma ea], b as [sb|sb| |sb mb eb],
           c as [sc|sc| |sc mc ec];
    cbn [SFcompare]; try discriminate; try reflexivity;
    repeat match goal with s : bool |- _ => destruct s end;
    try discriminate; try reflexivity.
  - (* three negative finite floats *)
    change (Pos.compare_cont Eq ma mb) with (Pos.compare ma mb).
    change (Pos.compare_cont Eq mb mc) with (Pos.compare mb mc).
    change (Pos.compare_cont Eq ma mc) with (Pos.compare ma mc).
    destruct (Z.compare_spec ea eb), (Z.compare_spec eb ec), (Z.compare_spec ea ec);
      try discriminate; try reflexivity; try lia;
      destruct (Pos.compare_spec ma mb), (Pos.compare_spec mb mc),
               (Pos.compare_spec ma mc);
      cbn [CompOpp]; try discriminate; try reflexivity; lia.
  - (* three positive finite floats *)
    change (Pos.compare_cont Eq ma mb) with (Pos.compare ma mb).
    change (Pos.compare_cont Eq mb mc) with (Pos.compare mb mc).
    change (Pos.compare_cont Eq ma mc) with (Pos.compare ma mc).
    destruct (Z.compare_spec ea eb), (Z.compare_spec eb ec), (Z.compare_spec ea ec);
      try discriminate; try reflexivity; try lia;
      destruct (Pos.compare_spec ma mb), (Pos.compare_spec mb mc),
               (Pos.compare_spec ma mc);
      try discriminate; try reflexivity; lia.
Qed.

Lemma ge_nan_l (b : float) : Float32.ge S754_nan b = false.
Proof. reflexivity. Qed.

Lemma ge_nan_r (a : float) : Float32.ge a S754_nan = false.
Proof. destruct a; reflexivity. Qed.

(** ** The kept records *)

Section Kept.

Variable results : list float.
Variable confidence_threshold : float.
Variables img_width img_height orig_width orig_height : Z.

Hypothesis results_fit : Z.of_nat (List.length results) <= Int32.max.

Local Notation keeps' := (keeps confidence_threshold).
Local Notation yields' := (yields img_width img_height orig_width orig_height).

Lemma filterDetections_kept (detections : list Detection) :
  filterDetections results confidence_threshold
    img_width img_height orig_width orig_height = Returns detections ->
  Forall2 (fun r d => keeps' r = true /\ yields' r d)
    (filter keeps' (records results)) detections.
Proof.
  intros H. apply filterDetections_Returns in H as [_ Hy]; [|exact results_fit].
  assert (Hk : Forall (fun r => keeps' r = true) (filter keeps' (records results))).
  { apply Forall_forall. intros r Hr. apply filter_In in Hr. tauto. }
  revert Hk Hy. generalize (filter keeps' (records results)) as kept.
  intros kept Hk Hy. induction Hy as [|r d kept detections Hrd _ IH].
  - constructor.
  - inversion Hk; subst. constructor; [split; assumption|auto].
Qed.

(** filterDetections either returns or is undefined. *)
Lemma filterDetections_Undefined :
  (forall detections,
      filterDetections results confidence_threshold
        img_width img_height orig_width orig_height <> Returns detections) ->
  filterDetections results confidence_threshold
    img_width img_height orig_width orig_height = Undefined.
Proof.
  intros H.
  destruct (filterDetections results confidence_threshold
              img_width img_height orig_width orig_height) as [d|w|] eqn:E.
  - exfalso. exact (H d eq_refl).
  - exfalso. exact (filterDetections_not_Throws _ _ _ _ _ _ _ E).
  - reflexivity.
Qed.

End Kept.

Lemma yields_functional Wm Hm Wo Ho (r : RawRecord) (d d' : Detection) :
  yields Wm Hm Wo Ho r d -> yields Wm Hm Wo Ho r d' -> d = d'.
Proof.
  intros (Hc & Hi & Hx & Hy & Hw & Hh & Hn) (Hc' & Hi' & Hx' & Hy' & Hw' & Hh' & Hn').
  destruct d as [c [bx by_ bw bh] i n], d' as [c' [bx' by' bw' bh'] i' n'].
  cbn [confidence bbox class_id class_name x y width height] in *.
  assert (i = i') by congruence. subst i'.
  f_equal; [congruence| |congruence]. f_equal; congruence.
Qed.

Lemma records_app (a b : list float) :
  (List.length a mod 6 = 0)%nat -> records (a ++ b) = records a ++ records b.
Proof.
  induction a as [a Ha | a0 a1 a2 a3 a4 a5 rest IH] using list_ind6; intros Hmod.
  - rewrite Nat.mod_small in Hmod by exact Ha.
    destruct a; [reflexivity|discriminate Hmod].
  - change (List.length (a0 :: a1 :: a2 :: a3 :: a4 :: a5 :: rest))
      with (6 + List.length rest)%nat in Hmod.
    replace (6 + List.length rest)%nat with (List.length rest + 1 * 6)%nat in Hmod
      by lia.
    rewrite Nat.Div0.mod_add in Hmod.
    cbn [app records]. rewrite (IH Hmod). reflexivity.
Qed.

(** X1. There are never more detections than whole records, and a buffer of
    fewer than six floats gives none, whatever it holds. *)
Theorem filterDetections_count :
  forall (results : list float) (confidence_threshold : float)
         (img_width img_height orig_width orig_height : Z),
    (forall detections : list Detection,
        Z.of_nat (List.length results) <= Int32.max ->
        filterDetections results confidence_threshold
          img_width img_height orig_width orig_height = Returns detections ->
        (List.length detections <= List.length results / 6)%nat)
    /\ ((List.length results < 6)%nat ->
        filterDetections results confidence_threshold
          img_width img_height orig_width orig_height = Returns []).
Proof.
  intros results th Wm Hm Wo Ho. split.
  - intros detections Hfit H.
    apply filterDetections_Returns in H as [_ Hy]; [|exact Hfit].
    rewrite <- (Forall2_length Hy), <- records_length. apply filter_length_le.
  - intros Hshort. unfold filterDetections, num_detections.
    rewrite <- Nat2Z.inj_div with (m := 6%nat), Nat.div_small by exact Hshort.
    reflexivity.
Qed.

Lemma filterDetections_count_witness :
  Z.of_nat (List.length three_records) <= Int32.max
  /\ filterDetections three_records half 640 640 1280 720
     = Returns three_records_detections
  /\ (List.length three_records_detections <= List.length three_records / 6)%nat.
Proof.
  assert (H1 : Z.of_nat (List.length three_records) <= Int32.max)
    by (vm_compute; discriminate).
  assert (H2 : filterDetections three_records half 640 640 1280 720
               = Returns three_records_detections) by (vm_compute; reflexivity).
  exact (conj H1 (conj H2
           (proj1 (filterDetections_count _ _ _ _ _ _) _ H1 H2))).
Defined.

(** X2. Raising the threshold is filtering the earlier result: when the
    call at a threshold returns, the call at any threshold [>=] it returns
    the earlier detections whose confidence is [>=] the new threshold, in
    the same order. *)
Theorem filterDetections_raise_threshold :
  forall (results : list float) (low high : float)
         (img_width img_height orig_width orig_height : Z)
         (detections : list Detection),
    Z.of_nat (List.length results) <= Int32.max ->
    Float32.ge high low = true ->
    filterDetections results low img_width img_height orig_width orig_height
    = Returns detections ->
    filterDetections results high img_width img_height orig_width orig_height
    = Returns (filter (fun d => Float32.ge (confidence d) high) detections).
Proof.
  intros results low high Wm Hm Wo Ho detections Hfit Hge H.
  apply filterDetections_Returns in H as [Hc Hy]; [|exact Hfit].
  apply filterDetections_Returns; [exact Hfit|]. split; [exact Hc|].
  induction (records results) as [|r rs IH] in detections, Hy |- *.
  - inversion Hy. constructor.
  - cbn [filter] in *. unfold keeps at 1 in Hy. unfold keeps at 1.
    destruct (Float32.ge (r_confidence r) low) eqn:Hlow.
    + inversion Hy as [|? d ? ds Hrd Hrest]; subst. cbn [filter].
      destruct Hrd as (Hconf & Hrd). rewrite Hconf.
      destruct (Float32.ge (r_confidence r) high).
      * constructor; [split; [exact Hconf|exact Hrd]|apply IH; exact Hrest].
      * apply IH. exact Hrest.
    + destruct (Float32.ge (r_confidence r) high) eqn:Hhigh.
      * rewrite (ge_trans _ _ _ Hhigh Hge) in Hlow. discriminate Hlow.
      * apply IH. exact Hy.
Qed.

Lemma filterDetections_raise_threshold_witness :
  Z.of_nat (List.length three_records) <= Int32.max
  /\ Float32.ge f0_92 half = true
  /\ filterDetections three_records half 640 640 1280 720
     = Returns three_records_detections
  /\ filterDetections three_records f0_92 640 640 1280 720
     = Returns (filter (fun d => Float32.ge (confidence d) f0_92)
                  three_records_detections).
Proof.
  assert (H1 : Z.of_nat (List.length three_records) <= Int32.max)
    by (vm_compute; discriminate).
  assert (H2 : Float32.ge f0_92 half = true) by (vm_compute; reflexivity).
  assert (H3 : filterDetections three_records half 640 640 1280 720
               = Returns three_records_detections) by (vm_compute; reflexivity).
  exact (conj H1 (conj H2 (conj H3
           (filterDetections_raise_threshold _ _ _ _ _ _ _ _ H1 H2 H3)))).
Defined.

Lemma Forall2_In_l (A B : Type) (P : A -> B -> Prop) (la : list A) (lb : list B) (a : A) :
  Forall2 P la lb -> In a la -> exists b, In b lb /\ P a b.
Proof.
  induction 1 as [|a' b' la lb Hab _ IH]; intros Hin; [contradiction|].
  destruct Hin as [<- | Hin].
  - exists b'. split; [left; reflexivity|exact Hab].
  - destruct (IH Hin) as (b & Hb & Hp). exists b. split; [right; exact Hb|exact Hp].
Qed.

Lemma Forall2_In_r (A B : Type) (P : A -> B -> Prop) (la : list A) (lb : list B) (b : B) :
  Forall2 P la lb -> In b lb -> exists a, In a la /\ P a b.
Proof.
  induction 1 as [|a' b' la lb Hab _ IH]; intros Hin; [contradiction|].
  destruct Hin as [<- | Hin].
  - exists a'. split; [left; reflexivity|exact Hab].
  - destruct (IH Hin) as (a & Ha & Hp). exists a. split; [right; exact Ha|exact Hp].
Qed.

(** X3. Buffers of whole records compose: the call on [a ++ b], [a] holding
    whole records, returns exactly when the calls on [a] and on [b] return,
    and then its detections are those of [a] followed by those of [b]. *)
Theorem filterDetections_app :
  forall (a b : list float) (confidence_threshold : float)
         (img_width img_height orig_width orig_height : Z)
         (detections : list Detection),
    (List.length a mod 6 = 0)%nat ->
    Z.of_nat (List.length (a ++ b)) <= Int32.max ->
    (filterDetections (a ++ b) confidence_threshold
       img_width img_height orig_width orig_height = Returns detections
     <-> exists da db,
           detections = da ++ db
           /\ filterDetections a confidence_threshold
                img_width img_height orig_width orig_height = Returns da
           /\ filterDetections b confidence_threshold
                img_width img_height orig_width orig_height = Returns db).
Proof.
  intros a b th Wm Hm Wo Ho detections Hmod Hfit.
  assert (Ha : Z.of_nat (List.length a) <= Int32.max)
    by (rewrite length_app in Hfit; lia).
  assert (Hb : Z.of_nat (List.length b) <= Int32.max)
    by (rewrite length_app in Hfit; lia).
  rewrite (filterDetections_Returns _ th Wm Hm Wo Ho Hfit).
  rewrite (records_app a b Hmod), filter_app, Forall_app. split.
  - intros [[Hca Hcb] Hy].
    apply Forall2_app_inv_l in Hy as (da & db & Hya & Hyb & ->).
    exists da, db. split; [reflexivity|].
    split; apply filterDetections_Returns; auto.
  - intros (da & db & -> & Hda & Hdb).
    apply filterDetections_Returns in Hda as [Hca Hya]; [|exact Ha].
    apply filterDetections_Returns in Hdb as [Hcb Hyb]; [|exact Hb].
    split; [split; assumption|]. apply Forall2_app; assumption.
Qed.

Lemma filterDetections_app_witness :
  (List.length scenario_buffer mod 6 = 0)%nat
  /\ Z.of_nat (List.length (scenario_buffer ++ scenario_buffer)) <= Int32.max
  /\ (filterDetections (scenario_buffer ++ scenario_buffer) half 640 640 1280 720
      = Returns ([mkDetection f0_92 (mkRect 640 202 640 202) 0 "person"]
                 ++ [mkDetection f0_92 (mkRect 640 202 640 202) 0 "person"])
      <-> exists da db,
            [mkDetection f0_92 (mkRect 640 202 640 202) 0 "person"]
            ++ [mkDetection f0_92 (mkRect 640 202 640 202) 0 "person"] = da ++ db
            /\ filterDetections scenario_buffer half 640 640 1280 720 = Returns da
            /\ filterDetections scenario_buffer half 640 640 1280 720 = Returns db).
Proof.
  assert (H1 : (List.length scenario_buffer mod 6 = 0)%nat) by reflexivity.
  assert (H2 : Z.of_nat (List.length (scenario_buffer ++ scenario_buffer))
               <= Int32.max) by (vm_compute; discriminate).
  exact (conj H1 (conj H2 (filterDetections_app _ _ _ _ _ _ _ _ H1 H2))).
Defined.

(** X4. A NaN never passes the test [confidence >= confidence_threshold]:
    no returned detection has a NaN confidence, and with a NaN threshold no
    detection is returned at all. *)
Theorem filterDetections_nan :
  forall (results : list float) (confidence_threshold : float)
         (img_width img_height orig_width orig_height : Z)
         (detections : list Detection),
    Z.of_nat (List.length results) <= Int32.max ->
    filterDetections results confidence_threshold
      img_width img_height orig_width orig_height = Returns detections ->
    Forall (fun d => confidence d <> S754_nan) detections
    /\ (confidence_threshold = S754_nan -> detections = []).
Proof.
  intros results th Wm Hm Wo Ho detections Hfit H.
  apply filterDetections_kept in H; [|exact Hfit].
  split.
  - induction H as [|r d kept detections [Hk Hrd] _ IH]; constructor; [|exact IH].
    destruct Hrd as (Hc & _). unfold keeps in Hk. rewrite Hc. intros Hnan.
    rewrite Hnan, ge_nan_l in Hk. discriminate Hk.
  - intros ->. destruct H as [|r d kept detections [Hk _] _]; [reflexivity|].
    unfold keeps in Hk. rewrite ge_nan_r in Hk. discriminate Hk.
Qed.

Lemma filterDetections_nan_witness :
  Z.of_nat (List.length three_records) <= Int32.max
  /\ filterDetections three_records S754_nan 640 640 1280 720 = Returns []
  /\ Forall (fun d => confidence d <> S754_nan) [].
Proof.
  assert (H1 : Z.of_nat (List.length three_records) <= Int32.max)
    by (vm_compute; discriminate).
  assert (H2 : filterDetections three_records S754_nan 640 640 1280 720
               = Returns []) by (vm_compute; reflexivity).
  exact (conj H1 (conj H2
           (proj1 (filterDetections_nan _ _ _ _ _ _ _ H1 H2)))).
Defined.

(** X5. The class field of every record is converted to [int] before the
    confidence is looked at: one record whose class field has no [int]
    value (a NaN, an infinity, a value out of range) makes the call
    undefined, whether or not that record would have been kept. *)
Theorem filterDetections_class_first :
  forall (results : list float) (confidence_threshold : float)
         (img_width img_height orig_width orig_height : Z),
    Z.of_nat (List.length results) <= Int32.max ->
    Exists (fun r => Float32.to_int (r_class r) = None) (records results) ->
    filterDetections results confidence_threshold
      img_width img_height orig_width orig_height = Undefined.
Proof.
  intros results th Wm Hm Wo Ho Hfit Hex.
  apply filterDetections_Undefined. intros detections H.
  apply filterDetections_Returns in H as [Hc _]; [|exact Hfit].
  rewrite Forall_forall in Hc. apply Exists_exists in Hex as (r & Hin & Hr).
  exact (Hc r Hin Hr).
Qed.

Lemma filterDetections_class_first_witness :
  Z.of_nat (List.length dropped_nan_class) <= Int32.max
  /\ Exists (fun r => Float32.to_int (r_class r) = None) (records dropped_nan_class)
  /\ Forall (fun r => Float32.to_int (r_class r) = None -> keeps half r = false)
       (records dropped_nan_class)
  /\ filterDetections dropped_nan_class half 640 640 1280 720 = Undefined.
Proof.
  assert (H1 : Z.of_nat (List.length dropped_nan_class) <= Int32.max)
    by (vm_compute; discriminate).
  assert (H2 : Exists (fun r => Float32.to_int (r_class r) = None)
                 (records dropped_nan_class))
    by (apply Exists_cons_tl, Exists_cons_hd; reflexivity).
  refine (conj H1 (conj H2 (conj _
            (filterDetections_class_first _ half 640 640 1280 720 H1 H2)))).
  repeat constructor; vm_compute; congruence.
Defined.

Lemma rescale_zero_model (v : float) (orig : Z) : rescale v orig 0 = Undefined.
Proof.
  unfold rescale. change (Float32.of_int 0) with (S754_zero false).
  destruct (Float32.mul v (Float32.of_int orig)) as [s|s| |s m e]; reflexivity.
Qed.

(** X6. The model's width and height are divisors: when one of them is 0,
    the call is undefined as soon as one record is kept. *)
Theorem filterDetections_zero_model_size :
  forall (results : list float) (confidence_threshold : float)
         (img_width img_height orig_width orig_height : Z),
    Z.of_nat (List.length results) <= Int32.max ->
    img_width = 0 \/ img_height = 0 ->
    Exists (fun r => keeps confidence_threshold r = true) (records results) ->
    filterDetections results confidence_threshold
      img_width img_height orig_width orig_height = Undefined.
Proof.
  intros results th Wm Hm Wo Ho Hfit Hzero Hex.
  apply filterDetections_Undefined. intros detections H.
  apply filterDetections_Returns in H as [_ Hy]; [|exact Hfit].
  apply Exists_exists in Hex as (r & Hin & Hk).
  assert (Hkept : In r (filter (keeps th) (records results)))
    by (apply filter_In; split; assumption).
  destruct (Forall2_In_l _ _ _ _ _ _ Hy Hkept) as (d & _ & (_ & _ & Hx & Hyy & _)).
  destruct Hzero as [-> | ->].
  - rewrite rescale_zero_model in Hx. discriminate Hx.
  - rewrite rescale_zero_model in Hyy. discriminate Hyy.
Qed.

Lemma filterDetections_zero_model_size_witness :
  Z.of_nat (List.length scenario_buffer) <= Int32.max
  /\ (0 = 0 \/ 640 = 0)
  /\ Exists (fun r => keeps half r = true) (records scenario_buffer)
  /\ filterDetections scenario_buffer half 0 640 1280 720 = Undefined.
Proof.
  assert (H1 : Z.of_nat (List.length scenario_buffer) <= Int32.max)
    by (vm_compute; discriminate).
  assert (H2 : 0 = 0 \/ 640 = 0) by (left; reflexivity).
  assert (H3 : Exists (fun r => keeps half r = true) (records scenario_buffer))
    by (apply Exists_cons_hd; vm_compute; reflexivity).
  exact (conj H1 (conj H2 (conj H3
           (filterDetections_zero_model_size _ _ _ _ _ _ H1 H2 H3)))).
Defined.

(** X7. The four sizes only enter the boxes: two calls on the same buffer
    and threshold that differ in the sizes return detections with the same
    confidences, class ids and class names, in the same order. *)
Theorem filterDetections_sizes :
  forall (results : list float) (confidence_threshold : float)
         (img_width img_height orig_width orig_height : Z)
         (img_width' img_height' orig_width' orig_height' : Z)
         (detections detections' : list Detection),
    Z.of_nat (List.length results) <= Int32.max ->
    filterDetections results confidence_threshold
      img_width img_height orig_width orig_height = Returns detections ->
    filterDetections results confidence_threshold
      img_width' img_height' orig_width' orig_height' = Returns detections' ->
    map (fun d => (confidence d, class_id d, class_name d)) detections
    = map (fun d => (confidence d, class_id d, class_name d)) detections'.
Proof.
  intros results th Wm Hm Wo Ho Wm' Hm' Wo' Ho' detections detections' Hfit H H'.
  apply filterDetections_Returns in H as [_ Hy]; [|exact Hfit].
  apply filterDetections_Returns in H' as [_ Hy']; [|exact Hfit].
  revert detections' Hy'.
  induction Hy as [|r d kept detections Hrd _ IH]; intros detections' Hy';
    inversion Hy' as [|? d' ? ds' Hrd' Hrest]; subst.
  - reflexivity.
  - cbn [map]. rewrite (IH _ Hrest).
    destruct Hrd as (Hc & Hi & _ & _ & _ & _ & Hn).
    destruct Hrd' as (Hc' & Hi' & _ & _ & _ & _ & Hn').
    assert (Hid : class_id d = class_id d') by congruence.
    rewrite Hid in Hn.
    assert (Hconf : confidence d = confidence d') by congruence.
    assert (Hname : class_name d = class_name d') by congruence.
    rewrite Hconf, Hid, Hname. reflexivity.
Qed.

Lemma filterDetections_sizes_witness :
  Z.of_nat (List.length three_records) <= Int32.max
  /\ filterDetections three_records half 640 640 1280 720
     = Returns three_records_detections
  /\ filterDetections three_records half 640 640 640 640
     = Returns [ mkDetection f0_92 (mkRect 320 180 320 180) 0 "person";
                 mkDetection half (mkRect 10 20 20 20) 2 "car" ]
  /\ map (fun d => (confidence d, class_id d, class_name d)) three_records_detections
     = map (fun d => (confidence d, class_id d, class_name d))
         [ mkDetection f0_92 (mkRect 320 180 320 180) 0 "person";
           mkDetection half (mkRect 10 20 20 20) 2 "car" ].
Proof.
  assert (H1 : Z.of_nat (List.length three_records) <= Int32.max)
    by (vm_compute; discriminate).
  assert (H2 : filterDetections three_records half 640 640 1280 720
               = Returns three_records_detections) by (vm_compute; reflexivity).
  assert (H3 : filterDetections three_records half 640 640 640 640
               = Returns [ mkDetection f0_92 (mkRect 320 180 320 180) 0 "person";
                           mkDetection half (mkRect 10 20 20 20) 2 "car" ])
    by (vm_compute; reflexivity).
  exact (conj H1 (conj H2 (conj H3
           (filterDetections_sizes _ _ _ _ _ _ _ _ _ _ _ _ H1 H2 H3)))).
Defined.

Lemma CLASS_NAMES_NoDup : NoDup CLASS_NAMES.
Proof.
  replace CLASS_NAMES with (nodup string_dec CLASS_NAMES)
    by (vm_compute; reflexivity).
  apply NoDup_nodup.
Qed.

(** X8. The table has no name twice, so among returned detections the class
    name tells the class id: detections with the same name have the same
    id. *)
Theorem filterDetections_class_name :
  forall (results : list float) (confidence_threshold : float)
         (img_width img_height orig_width orig_height : Z)
         (detections : list Detection),
    Z.of_nat (List.length results) <= Int32.max ->
    filterDetections results confidence_threshold
      img_width img_height orig_width orig_height = Returns detections ->
    forall d d', In d detections -> In d' detections ->
                 class_name d = class_name d' -> class_id d = class_id d'.
Proof.
  intros results th Wm Hm Wo Ho detections Hfit H d d' Hd Hd' Hname.
  apply filterDetections_Returns in H as [_ Hy]; [|exact Hfit].
  destruct (Forall2_In_r _ _ _ _ _ _ Hy Hd) as (r & _ & Hrd).
  destruct (Forall2_In_r _ _ _ _ _ _ Hy Hd') as (r' & _ & Hrd').
  apply yields_class_id in Hrd as [Hr Hn]. apply yields_class_id in Hrd' as [Hr' Hn'].
  assert (Hlen : List.length CLASS_NAMES = 80%nat) by reflexivity.
  assert (Heq : Z.to_nat (class_id d) = Z.to_nat (class_id d')).
  { apply (proj1 (NoDup_nth_error CLASS_NAMES) CLASS_NAMES_NoDup).
    - rewrite Hlen. lia.
    - rewrite Hn, Hn', Hname. reflexivity. }
  lia.
Qed.

Lemma filterDetections_class_name_witness :
  Z.of_nat (List.length (scenario_buffer ++ scenario_buffer)) <= Int32.max
  /\ filterDetections (scenario_buffer ++ scenario_buffer) half 640 640 1280 720
     = Returns [ mkDetection f0_92 (mkRect 640 202 640 202) 0 "person";
                 mkDetection f0_92 (mkRect 640 202 640 202) 0 "person" ]
  /\ forall d d',
      In d [ mkDetection f0_92 (mkRect 640 202 640 202) 0 "person";
             mkDetection f0_92 (mkRect 640 202 640 202) 0 "person" ] ->
      In d' [ mkDetection f0_92 (mkRect 640 202 640 202) 0 "person";
              mkDetection f0_92 (mkRect 640 202 640 202) 0 "person" ] ->
      class_name d = class_name d' -> class_id d = class_id d'.
Proof.
  assert (H1 : Z.of_nat (List.length (scenario_buffer ++ scenario_buffer))
               <= Int32.max) by (vm_compute; discriminate).
  assert (H2 : filterDetections (scenario_buffer ++ scenario_buffer)
                 half 640 640 1280 720
               = Returns [ mkDetection f0_92 (mkRect 640 202 640 202) 0 "person";
                           mkDetection f0_92 (mkRect 640 202 640 202) 0 "person" ])
    by (vm_compute; reflexivity).
  exact (conj H1 (conj H2 (filterDetections_class_name _ _ _ _ _ _ _ H1 H2))).
Defined.

(** * Further properties of the renderer and of main *)

Lemma report_Returns (W : World) (image : Canvas) (d : Detection) (log : list event) :
  label_fits W d = true ->
  report W image d log
  = (log ++ [Cout (line W d)],
     Returns (mkCanvas (base image) (drawn image ++ annotation W d))).
Proof.
  unfold label_fits, report, annotation, label, io_bind, emit, lift, ret.
  destruct (getTextSize W _) as [[lw lh] bl]. intros H.
  apply andb_true_iff in H as [H H3]. apply andb_true_iff in H as [H1 H2].
  unfold Int32.checked. cbv beta iota. rewrite H1. cbv beta iota.
  rewrite H2. cbv beta iota. rewrite H3. cbv beta iota.
  unfold draw. cbn [base drawn]. rewrite <- !app_assoc. reflexivity.
Qed.

Lemma report_Undefined (W : World) (image : Canvas) (d : Detection) (log : list event) :
  label_fits W d = false ->
  report W image d log = (log ++ [Cout (line W d)], Undefined).
Proof.
  unfold label_fits, report, label, io_bind, emit, lift, ret.
  destruct (getTextSize W _) as [[lw lh] bl]. intros H.
  unfold Int32.checked. cbv beta iota.
  destruct (Int32.in_range (y (bbox d) - lh)); [|reflexivity]. cbv beta iota.
  destruct (Int32.in_range (x (bbox d) + lw)); [|reflexivity]. cbv beta iota.
  destruct (Int32.in_range (y (bbox d) + bl)); [discriminate H|reflexivity].
Qed.

Lemma report_all_Returns (W : World) (detections : list Detection) :
  forall (image : Canvas) (log : list event),
    Forall (fun d => label_fits W d = true) detections ->
    report_all W image detections log
    = (log ++ map (fun d => Cout (line W d)) detections,
       Returns (mkCanvas (base image)
                  (drawn image ++ flat_map (annotation W) detections))).
Proof.
  induction detections as [|d detections IH]; intros image log Hfit.
  - cbn [report_all map flat_map]. unfold ret. rewrite !app_nil_r.
    destruct image; reflexivity.
  - inversion Hfit as [|? ? Hd Hrest]; subst.
    cbn [report_all]. unfold io_bind. rewrite (report_Returns W image d log Hd).
    rewrite (IH _ _ Hrest). cbn [base drawn map flat_map].
    rewrite <- !app_assoc. reflexivity.
Qed.

Lemma report_all_fits (W : World) (detections : list Detection) :
  forall (image image' : Canvas) (log log' : list event),
    report_all W image detections log = (log', Returns image') ->
    Forall (fun d => label_fits W d = true) detections.
Proof.
  induction detections as [|d detections IH]; intros image image' log log' H.
  - constructor.
  - cbn [report_all] in H. unfold io_bind in H.
    destruct (label_fits W d) eqn:Hd.
    + rewrite (report_Returns W image d log Hd) in H.
      constructor; [exact Hd|exact (IH _ _ _ _ H)].
    + rewrite (report_Undefined W image d log Hd) in H. discriminate H.
Qed.

(** X9. What the loop of main draws.  When the coordinates of every
    label's background fit an [int], the loop prints one line per detection
    and draws on the image, after what was drawn on it before, the outline
    of the box, the label's background and the label of each detection, in
    the order of the detections: three drawing calls per detection.  It
    returns only in that case. *)
Theorem report_all_draws :
  forall (W : World) (detections : list Detection) (image : Canvas)
         (log : list event),
    (Forall (fun d => label_fits W d = true) detections ->
     report_all W image detections log
     = (log ++ map (fun d => Cout (line W d)) detections,
        Returns (mkCanvas (base image)
                   (drawn image ++ flat_map (annotation W) detections))))
    /\ (forall log' image',
           report_all W image detections log = (log', Returns image') ->
           Forall (fun d => label_fits W d = true) detections
           /\ log' = log ++ map (fun d => Cout (line W d)) detections
           /\ drawn image' = drawn image ++ flat_map (annotation W) detections
           /\ List.length (drawn image')
              = (List.length (drawn image) + 3 * List.length detections)%nat).
Proof.
  intros W detections image log. split; [apply report_all_Returns|].
  intros log' image' H.
  pose proof (report_all_fits _ _ _ _ _ _ H) as Hfit.
  rewrite (report_all_Returns W detections image log Hfit) in H.
  injection H as <- <-. cbn [drawn].
  split; [exact Hfit|]. split; [reflexivity|]. split; [reflexivity|].
  rewrite length_app. f_equal.
  clear. induction detections as [|d detections IH]; [reflexivity|].
  cbn [flat_map List.length]. rewrite length_app, IH.
  unfold annotation. destruct (getTextSize W _) as [[lw lh] bl].
  cbn [List.length]. lia.
Qed.

Lemma report_all_draws_witness :
  Forall (fun d => label_fits (test_world one_pixel []) d = true)
    three_records_detections
  /\ report_all (test_world one_pixel []) (mkCanvas one_pixel [])
       three_records_detections []
     = ([] ++ map (fun d => Cout (line (test_world one_pixel []) d))
                three_records_detections,
        Returns (mkCanvas (base (mkCanvas one_pixel []))
                   (drawn (mkCanvas one_pixel [])
                    ++ flat_map (annotation (test_world one_pixel []))
                         three_records_detections))).
Proof.
  assert (H1 : Forall (fun d => label_fits (test_world one_pixel []) d = true)
                 three_records_detections)
    by (repeat constructor; vm_compute; reflexivity).
  exact (conj H1
           (proj1 (report_all_draws (test_world one_pixel [])
                     three_records_detections (mkCanvas one_pixel []) []) H1)).
Defined.

(** ** Every run, stage by stage *)

Lemma firstn_stages (model_path image_path : string) (tensor : list float) (n : nat) :
  Forall (fun e => match e with
                   | Cerr _ | Cout _ | Imwrite _ _ => False
                   | _ => True
                   end)
    (firstn n (stages model_path image_path tensor)).
Proof.
  unfold stages.
  do 6 (destruct n as [|n]; [cbn [firstn]; repeat constructor|]).
  cbn [firstn]. repeat constructor.
Qed.

Lemma preprocessImage_stops (W : World) (image_path : string)
      (log log' : list event) (o : outcome (list float * Z * Z)) :
  preprocessImage W image_path [1; 3; 640; 640] log = (log', o) ->
  (forall value, o <> Returns value) ->
  log' = log ++ [Imread image_path]
  \/ log' = log ++ [Imread image_path; Resize 640 640].
Proof.
  unfold preprocessImage, io_bind, emit, lift, ret.
  change (vec_at [1; 3; 640; 640] 2) with (Returns 640).
  change (vec_at [1; 3; 640; 640] 3) with (Returns 640).
  cbv beta iota. change (Int32.wrap 640) with 640. intros H Hno.
  destruct (empty (imread W image_path)).
  { injection H as <- _. left. reflexivity. }
  right.
  destruct (resize W (imread W image_path) 640 640) as [resized|w|];
    cbv beta iota in H.
  - destruct (insert_planes _ _ _ _) as [tensor|w|]; cbv beta iota in H;
      injection H as <- Ho; rewrite <- app_assoc; reflexivity.
  - injection H as <- _. rewrite <- app_assoc. reflexivity.
  - injection H as <- _. rewrite <- app_assoc. reflexivity.
Qed.

Lemma run_stages (W : World) (model_path image_path : string)
      (log : list event) (o : outcome unit) :
  run W model_path image_path [] = (log, o) ->
  (exists tensor printed n,
      log = firstn n (stages model_path image_path tensor)
            ++ map (fun d => Cout (line W d)) printed
      /\ o <> Returns tt)
  \/ (exists tensor detections image,
         log = stages model_path image_path tensor
               ++ map (fun d => Cout (line W d)) detections
               ++ [Imwrite "result.jpg" image]
         /\ base image = imread W image_path
         /\ match imwrite W "result.jpg" image with
            | Returns _ => o = Returns tt
            | Throws what => o = Throws what
            | Undefined => o = Undefined
            end).
Proof.
  unfold run, io_bind at 1 2, emit at 1, lift at 1. cbv beta iota. intros H.
  destruct (create_session W model_path) as [session|w|] eqn:Hs;
    cbv beta iota in H;
    try (injection H as <- <-; left; exists [], [], 1%nat;
         split; [reflexivity|discriminate]).
  unfold io_bind at 1 in H.
  destruct (preprocessImage W image_path [1; 3; 640; 640]
              ([] ++ [SessionCreate model_path])) as [log1 o1] eqn:Hp.
  pose proof Hp as Hcases.
  apply preprocessImage_cases in Hcases as [_ Hret].
  destruct o1 as [[[tensor ow] oh]|w|];
    try (injection H as <- <-; left;
         destruct (preprocessImage_stops _ _ _ _ _ Hp ltac:(discriminate))
           as [-> | ->];
         [exists [], [], 2%nat|exists [], [], 3%nat];
         (split; [reflexivity|discriminate])).
  destruct (Hret _ _ _ eq_refl) as (Hlog & -> & ->). clear Hret Hp.
  unfold io_bind, emit, lift, ret in H. cbv beta iota in H.
  change (vec_at [1; 3; 640; 640] 2) with (Returns 640) in H.
  change (vec_at [1; 3; 640; 640] 3) with (Returns 640) in H.
  cbv beta iota in H. change (Int32.wrap 640) with 640 in H.
  subst log1.
  destruct (session_run W session tensor [1; 3; 640; 640]) as [results|w|] eqn:Hr;
    cbv beta iota in H;
    try (injection H as <- <-; left; exists tensor, [], 4%nat;
         split; [reflexivity|discriminate]).
  destruct (filterDetections results (Float32.ratio 1 2) 640 640
              (cols (imread W image_path)) (rows (imread W image_path)))
    as [detections|w|] eqn:Hf; cbv beta iota in H;
    try (injection H as <- <-; left; exists tensor, [], 5%nat;
         split; [reflexivity|discriminate]).
  destruct (report_all W (mkCanvas (imread W image_path) []) detections _)
    as [log2 o2] eqn:Hrep.
  destruct o2 as [image|w|].
  - pose proof (report_all_fits _ _ _ _ _ _ Hrep) as Hfit.
    rewrite (report_all_Returns W detections _ _ Hfit) in Hrep.
    injection Hrep as <- <-. right.
    exists tensor, detections,
      (mkCanvas (imread W image_path) (flat_map (annotation W) detections)).
    cbn [base drawn app] in *.
    destruct (imwrite W "result.jpg"
                (mkCanvas (imread W image_path)
                   (flat_map (annotation W) detections)));
      injection H as <- <-; (split; [reflexivity|split; reflexivity]).
  - apply report_all_log in Hrep as (printed & -> & _).
    injection H as <- <-. left. exists tensor, printed, 5%nat.
    split; [reflexivity|discriminate].
  - apply report_all_log in Hrep as (printed & -> & _).
    injection H as <- <-. left. exists tensor, printed, 5%nat.
    split; [reflexivity|discriminate].
Qed.

(** main, once the two paths are given, in terms of [run]. *)
Lemma main_run (W : World) (program model_path image_path : string) :
  main W program [model_path; image_path]
  = match create_env W with
    | Returns _ =>
        let (log, o) := run W model_path image_path [] in
        match o with
        | Returns _ => (log, Returns 0)
        | Throws what => (log ++ [Cerr ("Error: " ++ what ++ endl)], Returns 1)
        | Undefined => (log, Undefined)
        end
    | Throws what => ([], Throws what)
    | Undefined => ([], Undefined)
    end.
Proof.
  unfold main. cbn [List.length Z.of_nat Pos.of_succ_nat Pos.succ Z.eqb Pos.eqb negb nth].
  unfold try_catch, io_bind at 1 2, lift at 1.
  destruct (create_env W) as [[]|w|]; try reflexivity.
  destruct (run W model_path image_path []) as [log o].
  destruct o as [[]|w|]; reflexivity.
Qed.

Lemma main_two_arguments (W : World) (program : string) (arguments : list string)
      (log : list event) (status : outcome Z) :
  main W program arguments = (log, status) ->
  (List.length arguments <> 2%nat
   /\ log = [Cerr ("Usage: " ++ program ++ " <model_path> <image_path>" ++ endl)]
   /\ status = Returns 1)
  \/ exists model_path image_path, arguments = [model_path; image_path].
Proof.
  intros H.
  destruct (Nat.eq_dec (List.length arguments) 2) as [Hlen|Hlen].
  - right. destruct arguments as [|model_path [|image_path [|extra arguments]]];
      try discriminate Hlen.
    exists model_path, image_path. reflexivity.
  - left. unfold main in H.
    replace (Z.of_nat (List.length (program :: arguments)) =? 3) with false in H
      by (symmetry; apply Z.eqb_neq; cbn [List.length]; lia).
    unfold io_bind, emit, ret in H. cbv beta iota in H. cbn [negb nth app] in H.
    injection H as <- <-. repeat split. exact Hlen.
Qed.

(** X10. When the image cannot be decoded, the model has been loaded and
    the image read once; preprocessImage throws, main writes the message
    on standard error and returns 1.  Nothing is resized, no inference is
    run, nothing is printed or written. *)
Theorem main_unreadable_image :
  forall (W : World) (program model_path image_path : string)
         (session : Session W),
    create_env W = Returns tt ->
    create_session W model_path = Returns session ->
    empty (imread W image_path) = true ->
    main W program [model_path; image_path]
    = ([ SessionCreate model_path;
         Imread image_path;
         Cerr ("Error: " ++ ("Could not read the image: " ++ image_path) ++ endl) ],
       Returns 1).
Proof.
  intros W program model_path image_path session He Hs Hempty.
  rewrite main_run, He.
  unfold run, preprocessImage, io_bind, emit, lift, ret. cbv beta iota.
  rewrite Hs. cbv beta iota. rewrite Hempty. reflexivity.
Qed.

Lemma main_unreadable_image_witness :
  create_env (test_world (mkMat 0 0 []) []) = Returns tt
  /\ create_session (test_world (mkMat 0 0 []) []) "yolov10n.onnx" = Returns tt
  /\ empty (imread (test_world (mkMat 0 0 []) []) "missing.jpg") = true
  /\ main (test_world (mkMat 0 0 []) []) "yolov10cpp" ["yolov10n.onnx"; "missing.jpg"]%string
     = ([ SessionCreate "yolov10n.onnx";
          Imread "missing.jpg";
          Cerr ("Error: " ++ ("Could not read the image: " ++ "missing.jpg") ++ endl) ],
        Returns 1).
Proof.
  exact (conj eq_refl (conj eq_refl (conj eq_refl
           (main_unreadable_image (test_world (mkMat 0 0 []) [])
              "yolov10cpp"%string "yolov10n.onnx"%string "missing.jpg"%string tt
              eq_refl eq_refl eq_refl)))).
Defined.

(** X11. An exception of the inference library is reported and ends the
    run with status 1: when the model cannot be loaded, before the image is
    read; when the inference throws, after the image has been read and
    resized, and then nothing is printed, drawn or written. *)
Theorem main_inference_exception :
  forall (W : World) (program model_path image_path what : string),
    create_env W = Returns tt ->
    (create_session W model_path = Throws what ->
     main W program [model_path; image_path]
     = ([SessionCreate model_path; Cerr ("Error: " ++ what ++ endl)], Returns 1))
    /\ (forall (session : Session W) (resized : Mat),
           create_session W model_path = Returns session ->
           empty (imread W image_path) = false ->
           resize W (imread W image_path) 640 640 = Returns resized ->
           Z.of_nat (List.length (data resized)) = 3 * (640 * 640) ->
           session_run W session
             (channel_major (convertTo (data resized) alpha_1_255))
             [1; 3; 640; 640] = Throws what ->
           main W program [model_path; image_path]
           = ([ SessionCreate model_path; Imread image_path; Resize 640 640;
                SessionRun [1; 3; 640; 640]
                  (channel_major (convertTo (data resized) alpha_1_255));
                Cerr ("Error: " ++ what ++ endl) ],
              Returns 1)).
Proof.
  intros W program model_path image_path what He. split.
  - intros Hs. rewrite main_run, He.
    unfold run, io_bind, emit, lift, ret. cbv beta iota.
    rewrite Hs. reflexivity.
  - intros session resized Hs Hne Hrs Hlen Hrun.
    assert (Hmax : 640 * 640 <= Int64.max) by (vm_compute; discriminate).
    pose proof (preprocessImage_Returns W image_path 1 3 640 640
                  ([] ++ [SessionCreate model_path]) resized Hne Hrs Hlen Hmax)
      as Hpre.
    change (Int32.wrap 640) with 640 in Hpre.
    rewrite main_run, He.
    unfold run, io_bind, emit, lift, ret. cbv beta iota.
    rewrite Hs. cbv beta iota. rewrite Hpre. cbv beta iota.
    rewrite Hrun. reflexivity.
Qed.

Lemma main_inference_exception_witness :
  create_env no_model_world = Returns tt
  /\ create_session no_model_world "missing.onnx" = Throws "Load model failed"
  /\ main no_model_world "yolov10cpp" ["missing.onnx"; "bus.jpg"]%string
     = ([SessionCreate "missing.onnx";
         Cerr ("Error: " ++ "Load model failed" ++ endl)], Returns 1).
Proof.
  exact (conj eq_refl (conj eq_refl
           (proj1 (main_inference_exception no_model_world "yolov10cpp"%string
                     "missing.onnx"%string "bus.jpg"%string
                     "Load model failed"%string eq_refl) eq_refl))).
Defined.

(** X12. The whole of a run that succeeds: when every library call returns,
    filterDetections returns and the labels' coordinates fit, main logs the
    five stages, prints one line per detection, hands to [cv::imwrite],
    under the name [result.jpg], the image as read with the annotations of
    the detections in order, and returns 0, whether [cv::imwrite] returns
    true or false. *)
Theorem main_success :
  forall (W : World) (program model_path image_path : string)
         (session : Session W) (resized : Mat) (results : list float)
         (detections : list Detection) (written : bool),
    create_env W = Returns tt ->
    create_session W model_path = Returns session ->
    empty (imread W image_path) = false ->
    resize W (imread W image_path) 640 640 = Returns resized ->
    Z.of_nat (List.length (data resized)) = 3 * (640 * 640) ->
    session_run W session (channel_major (convertTo (data resized) alpha_1_255))
      [1; 3; 640; 640] = Returns results ->
    filterDetections results (Float32.ratio 1 2) 640 640
      (cols (imread W image_path)) (rows (imread W image_path))
    = Returns detections ->
    Forall (fun d => label_fits W d = true) detections ->
    imwrite W "result.jpg"
      (mkCanvas (imread W image_path) (flat_map (annotation W) detections))
    = Returns written ->
    main W program [model_path; image_path]
    = (stages model_path image_path
         (channel_major (convertTo (data resized) alpha_1_255))
       ++ map (fun d => Cout (line W d)) detections
       ++ [Imwrite "result.jpg"
             (mkCanvas (imread W image_path) (flat_map (annotation W) detections))],
       Returns 0).
Proof.
  intros W program model_path image_path session resized results detections
         written He Hs Hne Hrs Hlen Hrun Hf Hfit Hw.
  assert (Hmax : 640 * 640 <= Int64.max) by (vm_compute; discriminate).
  pose proof (preprocessImage_Returns W image_path 1 3 640 640
                ([] ++ [SessionCreate model_path]) resized Hne Hrs Hlen Hmax)
    as Hpre.
  change (Int32.wrap 640) with 640 in Hpre.
  rewrite main_run, He.
  unfold run, io_bind, emit, lift, ret. cbv beta iota.
  rewrite Hs. cbv beta iota. rewrite Hpre. cbv beta iota.
  rewrite Hrun. cbv beta iota.
  change (vec_at [1; 3; 640; 640] 2) with (Returns 640).
  change (vec_at [1; 3; 640; 640] 3) with (Returns 640).
  cbv beta iota. change (Int32.wrap 640) with 640.
  rewrite Hf. cbv beta iota.
  rewrite (report_all_Returns W detections _ _ Hfit). cbn [base drawn app].
  rewrite Hw. reflexivity.
Qed.

Lemma main_success_witness :
  create_env (test_world one_pixel scenario_buffer) = Returns tt
  /\ filterDetections scenario_buffer (Float32.ratio 1 2) 640 640 1 1
     = Returns [one_pixel_detection]
  /\ Forall (fun d => label_fits (test_world one_pixel scenario_buffer) d = true)
       [one_pixel_detection]
  /\ main (test_world one_pixel scenario_buffer) "yolov10cpp"
       ["yolov10n.onnx"; "bus.jpg"]%string
     = (stages "yolov10n.onnx" "bus.jpg"
          (channel_major
             (convertTo (solid 0 51 255 (Z.to_nat (640 * 640))) alpha_1_255))
        ++ map (fun d => Cout (line (test_world one_pixel scenario_buffer) d))
             [one_pixel_detection]
        ++ [Imwrite "result.jpg"
              (mkCanvas one_pixel
                 (flat_map (annotation (test_world one_pixel scenario_buffer))
                    [one_pixel_detection]))],
        Returns 0).
Proof.
  assert (H1 : filterDetections scenario_buffer (Float32.ratio 1 2) 640 640 1 1
               = Returns [one_pixel_detection]) by (vm_compute; reflexivity).
  assert (H2 : Forall (fun d => label_fits (test_world one_pixel scenario_buffer) d
                                = true) [one_pixel_detection])
    by (repeat constructor; vm_compute; reflexivity).
  assert (H3 : Z.of_nat (List.length (solid 0 51 255 (Z.to_nat (640 * 640))))
               = 3 * (640 * 640)) by (rewrite solid_length; lia).
  exact (conj eq_refl (conj H1 (conj H2
    (main_success (test_world one_pixel scenario_buffer)
       "yolov10cpp"%string "yolov10n.onnx"%string "bus.jpg"%string tt
       (mkMat 640 640 (solid 0 51 255 (Z.to_nat (640 * 640)))) scenario_buffer
       [one_pixel_detection] true
       eq_refl eq_refl eq_refl eq_refl H3 eq_refl H1 H2 eq_refl)))).
Defined.

(** ** What every run has in common *)

Lemma stages_lines (W : World) (model_path image_path : string)
      (tensor : list float) (printed : list Detection) (n : nat) :
  Forall (fun e => no_cerr e /\ no_imwrite e)
    (firstn n (stages model_path image_path tensor)
     ++ map (fun d => Cout (line W d)) printed).
Proof.
  apply Forall_app. split.
  - eapply Forall_impl; [|apply firstn_stages].
    intros [] H; cbn beta iota in *; tauto.
  - apply Forall_map, Forall_forall. intros d _. split; exact I.
Qed.

Lemma main_shape (W : World) (program : string) (arguments : list string)
      (log : list event) (status : outcome Z) :
  main W program arguments = (log, status) ->
  exists body tail,
    log = body ++ tail
    /\ Forall no_cerr body
    /\ ((tail = [] /\ status <> Returns 1)
        \/ (exists text, tail = [Cerr text]) /\ status = Returns 1)
    /\ (forall c, status = Returns c -> c = 0 \/ c = 1)
    /\ (forall what, status = Throws what -> body = [] /\ create_env W = Throws what)
    /\ ((exists before image,
            body = before ++ [Imwrite "result.jpg" image]
            /\ Forall no_imwrite before
            /\ base image = imread W (nth 1 arguments ""%string))
        \/ (Forall no_imwrite body /\ status <> Returns 0)).
Proof.
  intros H.
  assert (Hcode : forall (s : outcome Z),
             s = Returns 0 \/ s = Returns 1 \/ s = Undefined
             \/ (exists w, s = Throws w) ->
             forall c, s = Returns c -> c = 0 \/ c = 1).
  { intros s [-> | [-> | [-> | [w ->]]]] c Hc; try discriminate Hc;
      injection Hc as <-; [left|right]; reflexivity. }
  destruct (main_two_arguments _ _ _ _ _ H) as [(_ & -> & ->) | (m & i & ->)].
  { exists [], [Cerr ("Usage: " ++ program ++ " <model_path> <image_path>" ++ endl)].
    split; [reflexivity|]. split; [constructor|].
    split; [right; split; [eexists; reflexivity|reflexivity]|].
    split; [apply Hcode; tauto|].
    split; [intros what Hw; discriminate Hw|].
    right. split; [constructor|discriminate]. }
  rewrite main_run in H. cbn [nth].
  destruct (create_env W) as [[]|w|] eqn:He.
  2:{ injection H as <- <-. exists [], [].
      split; [reflexivity|]. split; [constructor|].
      split; [left; split; [reflexivity|discriminate]|].
      split; [apply Hcode; right; right; right; eexists; reflexivity|].
      split; [intros what Hw; injection Hw as <-; split; reflexivity|].
      right. split; [constructor|discriminate]. }
  2:{ injection H as <- <-. exists [], [].
      split; [reflexivity|]. split; [constructor|].
      split; [left; split; [reflexivity|discriminate]|].
      split; [apply Hcode; tauto|].
      split; [intros what Hw; discriminate Hw|].
      right. split; [constructor|discriminate]. }
  destruct (run W m i []) as [log1 o1] eqn:Hrun.
  apply run_stages in Hrun
    as [(tensor & printed & n & -> & Ho)
       | (tensor & detections & image & -> & Hbase & Ho)].
  - pose proof (stages_lines W m i tensor printed n) as Hall.
    assert (Hc : Forall no_cerr
                   (firstn n (stages m i tensor)
                    ++ map (fun d => Cout (line W d)) printed))
      by (eapply Forall_impl; [|exact Hall]; cbn beta; tauto).
    assert (Hi : Forall no_imwrite
                   (firstn n (stages m i tensor)
                    ++ map (fun d => Cout (line W d)) printed))
      by (eapply Forall_impl; [|exact Hall]; cbn beta; tauto).
    destruct o1 as [[]|w|]; [contradiction Ho; reflexivity| |];
      injection H as <- <-.
    + exists (firstn n (stages m i tensor)
              ++ map (fun d => Cout (line W d)) printed),
        [Cerr ("Error: " ++ w ++ endl)].
      split; [reflexivity|]. split; [exact Hc|].
      split; [right; split; [eexists; reflexivity|reflexivity]|].
      split; [apply Hcode; tauto|].
      split; [intros what Hw; discriminate Hw|].
      right. split; [exact Hi|discriminate].
    + exists (firstn n (stages m i tensor)
              ++ map (fun d => Cout (line W d)) printed), [].
      split; [symmetry; apply app_nil_r|]. split; [exact Hc|].
      split; [left; split; [reflexivity|discriminate]|].
      split; [apply Hcode; tauto|].
      split; [intros what Hw; discriminate Hw|].
      right. split; [exact Hi|discriminate].
  - assert (Hbefore : Forall (fun e => no_cerr e /\ no_imwrite e)
                        (stages m i tensor
                         ++ map (fun d => Cout (line W d)) detections))
      by exact (stages_lines W m i tensor detections 5).
    assert (Hc : Forall no_cerr
                   (stages m i tensor
                    ++ map (fun d => Cout (line W d)) detections
                    ++ [Imwrite "result.jpg" image])).
    { rewrite app_assoc. apply Forall_app. split; [|repeat constructor].
      eapply Forall_impl; [|exact Hbefore]. cbn beta. tauto. }
    assert (Hi : exists before image',
               stages m i tensor
               ++ map (fun d => Cout (line W d)) detections
               ++ [Imwrite "result.jpg" image]
               = before ++ [Imwrite "result.jpg" image']
               /\ Forall no_imwrite before
               /\ base image' = imread W i).
    { exists (stages m i tensor ++ map (fun d => Cout (line W d)) detections), image.
      split; [apply app_assoc|]. split; [|exact Hbase].
      eapply Forall_impl; [|exact Hbefore]. cbn beta. tauto. }
    destruct (imwrite W "result.jpg" image) as [written|w|]; subst o1;
      injection H as <- <-.
    + exists (stages m i tensor ++ map (fun d => Cout (line W d)) detections
              ++ [Imwrite "result.jpg" image]), [].
      split; [symmetry; apply app_nil_r|]. split; [exact Hc|].
      split; [left; split; [reflexivity|discriminate]|].
      split; [apply Hcode; tauto|].
      split; [intros what Hw; discriminate Hw|].
      left. exact Hi.
    + exists (stages m i tensor ++ map (fun d => Cout (line W d)) detections
              ++ [Imwrite "result.jpg" image]), [Cerr ("Error: " ++ w ++ endl)].
      split; [reflexivity|]. split; [exact Hc|].
      split; [right; split; [eexists; reflexivity|reflexivity]|].
      split; [apply Hcode; tauto|].
      split; [intros what Hw; discriminate Hw|].
      left. exact Hi.
    + exists (stages m i tensor ++ map (fun d => Cout (line W d)) detections
              ++ [Imwrite "result.jpg" image]), [].
      split; [symmetry; apply app_nil_r|]. split; [exact Hc|].
      split; [left; split; [reflexivity|discriminate]|].
      split; [apply Hcode; tauto|].
      split; [intros what Hw; discriminate Hw|].
      left. exact Hi.
Qed.

Lemma Forall_no_split (A : Type) (Q : A -> Prop) (l before after : list A) (y : A) :
  Forall Q l -> ~ Q y -> l = before ++ y :: after -> False.
Proof.
  intros Hl Hy ->. apply Forall_app in Hl as [_ Hl].
  inversion Hl; subst. contradiction.
Qed.

Lemma split_unique (A : Type) (Q : A -> Prop) (l1 l2 l1' l2' : list A) (x y : A) :
  Forall Q l1 -> Forall Q l2 -> ~ Q y ->
  l1 ++ x :: l2 = l1' ++ y :: l2' ->
  l1 = l1' /\ x = y /\ l2 = l2'.
Proof.
  intros H1 H2 Hy. revert l1' H1.
  induction l1 as [|a l1 IH]; intros [|a' l1'] H1 H; cbn [app] in H.
  - injection H as -> ->. repeat split.
  - injection H as -> ->. exfalso.
    exact (Forall_no_split _ Q _ _ _ _ H2 Hy eq_refl).
  - injection H as -> _. apply Forall_cons_iff in H1 as [H1 _]. contradiction.
  - injection H as -> H. apply Forall_cons_iff in H1 as [_ H1].
    destruct (IH l1' H1 H) as (-> & -> & ->). repeat split.
Qed.

(** X13. The exit status and the error stream.  Whatever the libraries do,
    a run of main that returns returns 0 or 1; it returns 1 exactly when
    the log ends with a message on [std::cerr]; such a message is the last
    event and the only one of its kind; and an exception leaves main only
    when the constructor of [Ort::Env], which is outside [try], throws, with
    nothing logged. *)
Theorem main_exit_status :
  forall (W : World) (program : string) (arguments : list string)
         (log : list event) (status : outcome Z),
    main W program arguments = (log, status) ->
    (forall c, status = Returns c -> c = 0 \/ c = 1)
    /\ (status = Returns 1 <-> exists before text, log = before ++ [Cerr text])
    /\ (forall before text after,
           log = before ++ Cerr text :: after ->
           after = [] /\ Forall no_cerr before)
    /\ (forall what, status = Throws what ->
                     log = [] /\ create_env W = Throws what).
Proof.
  intros W program arguments log status H.
  destruct (main_shape _ _ _ _ _ H)
    as (body & tail & -> & Hc & Ht & Hcode & Hthrow & _).
  assert (Hnot : forall text, ~ no_cerr (Cerr text)) by (intros text F; exact F).
  split; [exact Hcode|]. split; [split|split].
  - intros Hs. destruct Ht as [[_ Hn] | [(text & ->) _]]; [contradiction|].
    exists body, text. reflexivity.
  - intros (before & text & Hl).
    destruct Ht as [[-> _] | [_ Hs]]; [|exact Hs].
    rewrite app_nil_r in Hl.
    destruct (Forall_no_split _ _ _ _ _ _ Hc (Hnot text) Hl).
  - intros before text after Hl.
    destruct Ht as [[-> _] | [(text' & ->) _]].
    + rewrite app_nil_r in Hl.
      destruct (Forall_no_split _ _ _ _ _ _ Hc (Hnot text) Hl).
    + destruct (split_unique _ no_cerr _ _ _ _ _ _ Hc (Forall_nil _) (Hnot text) Hl)
        as (<- & _ & <-).
      split; [reflexivity|exact Hc].
  - intros what Hs. destruct (Hthrow what Hs) as [-> He].
    destruct Ht as [[-> _] | [_ Hs']]; [split; [reflexivity|exact He]|].
    rewrite Hs in Hs'. discriminate Hs'.
Qed.

Lemma main_exit_status_witness :
  main no_model_world "yolov10cpp" ["missing.onnx"; "bus.jpg"]%string
  = ([SessionCreate "missing.onnx";
      Cerr ("Error: " ++ "Load model failed" ++ endl)], Returns 1)
  /\ (forall c, Returns 1 = Returns c -> c = 0 \/ c = 1)
  /\ (forall before text after,
         [SessionCreate "missing.onnx";
          Cerr ("Error: " ++ "Load model failed" ++ endl)]
         = before ++ Cerr text :: after ->
         after = [] /\ Forall no_cerr before).
Proof.
  pose proof (main_exit_status no_model_world "yolov10cpp"%string
                ["missing.onnx"; "bus.jpg"]%string _ _ eq_refl)
    as (H1 & _ & H3 & _).
  exact (conj eq_refl (conj H1 H3)).
Defined.

(** X14. The only file main writes.  Whatever the libraries do, every
    [cv::imwrite] of a run has the fixed name [result.jpg] and comes at most
    once; what it is given is drawn over the image read from the path of
    the second argument; after it the log holds nothing, or the one message
    of a caught exception.  A run that returns 0 has made this call, as its
    last event. *)
Theorem main_writes_once :
  forall (W : World) (program : string) (arguments : list string)
         (log : list event) (status : outcome Z),
    main W program arguments = (log, status) ->
    (forall before path image after,
        log = before ++ Imwrite path image :: after ->
        path = "result.jpg"%string
        /\ base image = imread W (nth 1 arguments ""%string)
        /\ Forall no_imwrite before
        /\ (after = [] \/ exists text, after = [Cerr text]))
    /\ (status = Returns 0 ->
        exists before image, log = before ++ [Imwrite "result.jpg" image]).
Proof.
  intros W program arguments log status H.
  destruct (main_shape _ _ _ _ _ H)
    as (body & tail & -> & _ & Ht & _ & _ & Hw).
  assert (Hnot : forall path image, ~ no_imwrite (Imwrite path image))
    by (intros path image F; exact F).
  assert (Htail : Forall no_imwrite tail).
  { destruct Ht as [[-> _] | [(text & ->) _]]; repeat constructor. }
  assert (Hafter : tail = [] \/ exists text, tail = [Cerr text]).
  { destruct Ht as [[-> _] | [Ht _]]; [left; reflexivity|right; exact Ht]. }
  split.
  - intros before path image after Hl.
    destruct Hw as [(before' & image' & -> & Hb & Hbase) | [Hb _]].
    + rewrite <- app_assoc in Hl. cbn [app] in Hl.
      destruct (split_unique _ no_imwrite _ _ _ _ _ _ Hb Htail (Hnot path image) Hl)
        as (<- & Hi & <-).
      injection Hi as <- <-. repeat split; assumption.
    + exfalso. apply (Forall_no_split _ no_imwrite _ _ _ _
                        (proj2 (Forall_app _ _ _) (conj Hb Htail))
                        (Hnot path image) Hl).
  - intros Hs.
    destruct Hw as [(before' & image' & -> & _ & _) | [_ Hn]]; [|contradiction].
    destruct Ht as [[-> _] | [_ Hs']].
    + exists before', image'. apply app_nil_r.
    + rewrite Hs in Hs'. discriminate Hs'.
Qed.

Lemma main_writes_once_witness :
  main (test_world one_pixel []) "yolov10cpp" ["yolov10n.onnx"; "bus.jpg"]%string
  = (stages "yolov10n.onnx" "bus.jpg"
       (channel_major
          (convertTo (solid 0 51 255 (Z.to_nat (640 * 640))) alpha_1_255))
     ++ [Imwrite "result.jpg" (mkCanvas one_pixel [])],
     Returns 0)
  /\ ("result.jpg"%string = "result.jpg"%string
      /\ base (mkCanvas one_pixel [])
         = imread (test_world one_pixel [])
             (nth 1 ["yolov10n.onnx"; "bus.jpg"]%string ""%string)
      /\ Forall no_imwrite
           (stages "yolov10n.onnx" "bus.jpg"
              (channel_major
                 (convertTo (solid 0 51 255 (Z.to_nat (640 * 640))) alpha_1_255)))
      /\ (@nil event = [] \/ exists text, @nil event = [Cerr text])).
Proof.
  assert (H : main (test_world one_pixel [])
                "yolov10cpp" ["yolov10n.onnx"; "bus.jpg"]%string
              = (stages "yolov10n.onnx" "bus.jpg"
                   (channel_major
                      (convertTo (solid 0 51 255 (Z.to_nat (640 * 640)))
                         alpha_1_255))
                 ++ [Imwrite "result.jpg" (mkCanvas one_pixel [])],
                 Returns 0)).
  { refine (main_no_detection (test_world one_pixel [])
              "yolov10cpp"%string "yolov10n.onnx"%string "bus.jpg"%string tt
              (mkMat 640 640 (solid 0 51 255 (Z.to_nat (640 * 640)))) true
              eq_refl eq_refl eq_refl eq_refl _ eq_refl eq_refl).
    cbn [data]. rewrite solid_length. lia. }
  exact (conj H
           (proj1 (main_writes_once _ _ _ _ _ H) _ "result.jpg"%string
              (mkCanvas one_pixel []) [] eq_refl)).
Defined.

(** ** What preprocessImage copies *)

Lemma range_cases (A : Type) (buffer : list A) (n : Z) :
  (0 <= n <= Z.of_nat (List.length buffer)
   /\ range buffer n = Returns (firstn (Z.to_nat n) buffer))
  \/ (~ 0 <= n <= Z.of_nat (List.length buffer) /\ range buffer n = Undefined).
Proof.
  unfold range.
  destruct (Z.leb_spec 0 n); destruct (Z.leb_spec n (Z.of_nat (List.length buffer)));
    cbn [andb]; first [left; split; [lia|reflexivity] | right; split; [lia|reflexivity]].
Qed.

Lemma checked_cases (n : Z) :
  (Int64.min <= n <= Int64.max /\ Int64.checked n = Returns n)
  \/ (~ Int64.min <= n <= Int64.max /\ Int64.checked n = Undefined).
Proof.
  unfold Int64.checked, Int64.in_range.
  destruct (Z.leb_spec Int64.min n); destruct (Z.leb_spec n Int64.max);
    cbn [andb]; first [left; split; [lia|reflexivity] | right; split; [lia|reflexivity]].
Qed.

(** X15. The number of floats preprocessImage copies from each plane is the
    [int64_t] product [input_shape[2] * input_shape[3]], whatever the size
    of the resized image.  For an image that decodes and a resize that
    returns, the call returns exactly when this product is between 0 and
    the number of pixels of the resized image; it then returns the first
    [input_shape[2] * input_shape[3]] values of each plane in turn, three
    times that many floats, with the width and height of the image as read.
    Otherwise the copy reads past a plane, which is undefined. *)
Theorem preprocessImage_copy_count :
  forall (W : World) (image_path : string) (batch channels shape2 shape3 : Z)
         (log : list event) (resized : Mat),
    empty (imread W image_path) = false ->
    resize W (imread W image_path) (Int32.wrap shape2) (Int32.wrap shape3)
    = Returns resized ->
    let count := shape2 * shape3 in
    let values := convertTo (data resized) alpha_1_255 in
    let tensor := firstn (Z.to_nat count) (plane 0 values)
                  ++ firstn (Z.to_nat count) (plane 1 values)
                  ++ firstn (Z.to_nat count) (plane 2 values) in
    snd (preprocessImage W image_path [batch; channels; shape2; shape3] log)
    = (if (0 <=? count) && (count <=? Int64.max)
          && (3 * count <=? Z.of_nat (List.length (data resized)))
       then Returns (tensor, cols (imread W image_path), rows (imread W image_path))
       else Undefined)
    /\ (0 <= count -> 3 * count <= Z.of_nat (List.length (data resized)) ->
        Z.of_nat (List.length tensor) = 3 * count).
Proof.
  intros W image_path batch channels shape2 shape3 log resized Hne Hrs
         count values tensor.
  assert (Hmin : Int64.min < 0) by reflexivity.
  assert (Hp : forall c, 3 * Z.of_nat (List.length (plane c values))
                         <= Z.of_nat (List.length (data resized))
                         < 3 * Z.of_nat (List.length (plane c values)) + 3).
  { intros c. pose proof (plane_length _ c values) as H.
    unfold values, convertTo in H. rewrite length_map in H.
    unfold values, convertTo. lia. }
  split.
  - unfold preprocessImage, io_bind, emit, lift, ret. rewrite Hne.
    change (vec_at [batch; channels; shape2; shape3] 2) with (Returns shape2).
    change (vec_at [batch; channels; shape2; shape3] 3) with (Returns shape3).
    cbv iota beta. rewrite Hrs. cbv iota beta.
    fold values. unfold split. cbn [insert_planes]. fold count.
    pose proof (Hp 0%nat) as H0. pose proof (Hp 1%nat) as H1.
    pose proof (Hp 2%nat) as H2.
    assert (Hif : forall (b : bool) (o : outcome (list float * Z * Z)),
               b = false -> o = Undefined ->
               o = if b then Returns (tensor, cols (imread W image_path),
                                      rows (imread W image_path))
                   else Undefined)
      by (intros b o -> ->; reflexivity).
    destruct (checked_cases count) as [[Hc ->] | [Hc ->]]; cbn [bind snd];
      [|apply Hif; [|reflexivity];
        destruct (Z.leb_spec 0 count); destruct (Z.leb_spec count Int64.max);
        cbn [andb]; try reflexivity; lia].
    destruct (range_cases _ (plane 0 values) count) as [[Hr0 ->] | [Hr0 ->]];
      cbn [bind snd];
      [|apply Hif; [|reflexivity];
        destruct (Z.leb_spec 0 count); destruct (Z.leb_spec count Int64.max);
        destruct (Z.leb_spec (3 * count) (Z.of_nat (List.length (data resized))));
        cbn [andb]; try reflexivity; lia].
    destruct (range_cases _ (plane 1 values) count) as [[Hr1 ->] | [Hr1 ->]];
      cbn [bind snd]; [|lia].
    destruct (range_cases _ (plane 2 values) count) as [[Hr2 ->] | [Hr2 ->]];
      cbn [bind snd]; [|lia].
    destruct (Z.leb_spec 0 count); [|lia].
    destruct (Z.leb_spec count Int64.max); [|lia].
    destruct (Z.leb_spec (3 * count) (Z.of_nat (List.length (data resized))));
      [|lia].
    cbn [andb app].
    unfold tensor. rewrite <- app_assoc. reflexivity.
  - intros H0 Hle. unfold tensor. rewrite !length_app, !length_firstn.
    pose proof (Hp 0%nat). pose proof (Hp 1%nat). pose proof (Hp 2%nat). lia.
Qed.

Lemma preprocessImage_copy_count_witness :
  empty (imread (test_world one_pixel []) "bus.jpg") = false
  /\ resize (test_world one_pixel []) (imread (test_world one_pixel []) "bus.jpg")
       (Int32.wrap 2) (Int32.wrap (2 ^ 32 + 1))
     = Returns (mkMat 1 2 (solid 0 51 255 2))
  /\ snd (preprocessImage (test_world one_pixel []) "bus.jpg"
            [1; 3; 2; 2 ^ 32 + 1] [])
     = Undefined.
Proof.
  exact (conj eq_refl (conj eq_refl
    (proj1 (preprocessImage_copy_count (test_world one_pixel []) "bus.jpg"%string
              1 3 2 (2 ^ 32 + 1) [] (mkMat 1 2 (solid 0 51 255 2))
              eq_refl eq_refl)))).
Defined.

(** ** The values of the tensor *)

Lemma byte_in_table (v : Z) :
  0 <= v <= 255 -> In v (map Z.of_nat (seq 0 256)).
Proof.
  intros Hv. replace v with (Z.of_nat (Z.to_nat v)) by lia.
  apply in_map, in_seq. lia.
Qed.

Lemma normalize_order_table :
  forallb (fun u =>
             forallb (fun v =>
                        Bool.eqb (Float32.lt (normalize u) (normalize v)) (u <? v))
               (map Z.of_nat (seq 0 256)))
    (map Z.of_nat (seq 0 256))
  = true.
Proof. vm_compute. reflexivity. Qed.

Lemma normalize_unit_table :
  forallb (fun v =>
             Float32.valid (normalize v)
             && Float32.ge (normalize v) (Float32.of_int 0)
             && Float32.ge (Float32.of_int 1) (normalize v))
    (map Z.of_nat (seq 0 256))
  = true.
Proof. vm_compute. reflexivity. Qed.

(** X16. What [convertTo] with the factor [1.0 / 255] does to 8-bit channel
    values: 0 becomes 0 and 255 becomes exactly 1, every value in between
    becomes a float of the format between 0 and 1, and the order is kept
    strictly, so that two different channel values never give the same
    float. *)
Theorem convertTo_bytes :
  forall (values : list Z),
    Forall (fun v => 0 <= v <= 255) values ->
    Forall (fun x => Float32.valid x = true
                     /\ Float32.ge x (Float32.of_int 0) = true
                     /\ Float32.ge (Float32.of_int 1) x = true)
      (convertTo values alpha_1_255)
    /\ (forall i j u v,
           nth_error values i = Some u -> nth_error values j = Some v ->
           exists a b,
             nth_error (convertTo values alpha_1_255) i = Some a
             /\ nth_error (convertTo values alpha_1_255) j = Some b
             /\ Float32.lt a b = (u <? v)
             /\ (a = b -> u = v))
    /\ convertTo [0; 255] alpha_1_255 = [Float32.of_int 0; Float32.of_int 1].
Proof.
  intros values Hb.
  assert (Horder : forall u v, 0 <= u <= 255 -> 0 <= v <= 255 ->
                               Float32.lt (normalize u) (normalize v) = (u <? v)).
  { intros u v Hu Hv. pose proof normalize_order_table as Ht.
    rewrite forallb_forall in Ht. specialize (Ht u (byte_in_table u Hu)).
    rewrite forallb_forall in Ht. specialize (Ht v (byte_in_table v Hv)).
    apply eqb_prop in Ht. exact Ht. }
  split; [|split].
  - unfold convertTo. apply Forall_map.
    eapply Forall_impl; [|exact Hb]. intros v Hv.
    pose proof normalize_unit_table as Ht.
    rewrite forallb_forall in Ht. specialize (Ht v (byte_in_table v Hv)).
    apply andb_true_iff in Ht as [Ht H1]. apply andb_true_iff in Ht as [Hval H0].
    repeat split; assumption.
  - intros i j u v Hi Hj.
    rewrite Forall_forall in Hb.
    pose proof (Hb u (nth_error_In _ _ Hi)) as Hu.
    pose proof (Hb v (nth_error_In _ _ Hj)) as Hv.
    exists (normalize u), (normalize v).
    unfold convertTo. rewrite !nth_error_map, Hi, Hj.
    split; [reflexivity|]. split; [reflexivity|]. split; [apply Horder; assumption|].
    intros Heq.
    pose proof (Horder u v Hu Hv) as Huv. pose proof (Horder v u Hv Hu) as Hvu.
    rewrite Heq in Huv. rewrite <- Heq in Hvu at 1. rewrite Heq in Hvu.
    rewrite Huv in Hvu.
    destruct (Z.ltb_spec u v); destruct (Z.ltb_spec v u); try discriminate; lia.
  - vm_compute. reflexivity.
Qed.

Lemma convertTo_bytes_witness :
  Forall (fun v => 0 <= v <= 255) [0; 51; 255]
  /\ Forall (fun x => Float32.valid x = true
                      /\ Float32.ge x (Float32.of_int 0) = true
                      /\ Float32.ge (Float32.of_int 1) x = true)
       (convertTo [0; 51; 255] alpha_1_255).
Proof.
  assert (H : Forall (fun v => 0 <= v <= 255) [0; 51; 255])
    by (repeat constructor; lia).
  exact (conj H (proj1 (convertTo_bytes [0; 51; 255] H))).
Defined.

(** ** Labels at the edge of [int] *)

Lemma report_all_Undefined (W : World) (detections : list Detection) :
  forall (image : Canvas) (log : list event),
    snd (report_all W image detections log) = Undefined
    <-> Exists (fun d => label_fits W d = false) detections.
Proof.
  induction detections as [|d detections IH]; intros image log.
  - cbn [report_all]. unfold ret. cbn [snd]. split; [discriminate|].
    intros H. inversion H.
  - cbn [report_all]. unfold io_bind. destruct (label_fits W d) eqn:Hd.
    + rewrite (report_Returns W image d log Hd). rewrite IH.
      rewrite Exists_cons. rewrite Hd. split; [tauto|].
      intros [H|H]; [discriminate H|exact H].
    + rewrite (report_Undefined W image d log Hd). cbn [snd].
      split; [intros _; apply Exists_cons_hd; exact Hd|reflexivity].
Qed.

(** X17. The coordinates of a label's background, [bbox.y - height],
    [bbox.x + width] and [bbox.y + baseLine], are computed in [int], without
    a check.  When every library call returns and filterDetections returns
    a detection for which one of them does not fit an [int], a box whose
    top is [INT_MIN] for one, the run of main overflows a signed integer:
    its behaviour is undefined, and no exit status is promised. *)
Theorem main_label_overflow :
  forall (W : World) (program model_path image_path : string)
         (session : Session W) (resized : Mat) (results : list float)
         (detections : list Detection),
    create_env W = Returns tt ->
    create_session W model_path = Returns session ->
    empty (imread W image_path) = false ->
    resize W (imread W image_path) 640 640 = Returns resized ->
    Z.of_nat (List.length (data resized)) = 3 * (640 * 640) ->
    session_run W session (channel_major (convertTo (data resized) alpha_1_255))
      [1; 3; 640; 640] = Returns results ->
    filterDetections results (Float32.ratio 1 2) 640 640
      (cols (imread W image_path)) (rows (imread W image_path))
    = Returns detections ->
    Exists (fun d => label_fits W d = false) detections ->
    snd (main W program [model_path; image_path]) = Undefined.
Proof.
  intros W program model_path image_path session resized results detections
         He Hs Hne Hrs Hlen Hrun Hf Hex.
  assert (Hmax : 640 * 640 <= Int64.max) by (vm_compute; discriminate).
  pose proof (preprocessImage_Returns W image_path 1 3 640 640
                ([] ++ [SessionCreate model_path]) resized Hne Hrs Hlen Hmax)
    as Hpre.
  change (Int32.wrap 640) with 640 in Hpre.
  rewrite main_run, He.
  unfold run, io_bind, emit, lift, ret. cbv beta iota.
  rewrite Hs. cbv beta iota. rewrite Hpre. cbv beta iota.
  rewrite Hrun. cbv beta iota.
  change (vec_at [1; 3; 640; 640] 2) with (Returns 640).
  change (vec_at [1; 3; 640; 640] 3) with (Returns 640).
  cbv beta iota. change (Int32.wrap 640) with 640.
  rewrite Hf. cbv beta iota.
  match goal with
  | |- context [report_all W ?image detections ?log] =>
      pose proof (proj2 (report_all_Undefined W detections image log) Hex) as Hu;
        destruct (report_all W image detections log) as [log' o]
  end.
  cbn [snd] in Hu. subst o. reflexivity.
Qed.

Lemma main_label_overflow_witness :
  filterDetections top_edge_buffer (Float32.ratio 1 2) 640 640 1 1
  = Returns [top_edge_detection]
  /\ Exists (fun d => label_fits (test_world one_pixel top_edge_buffer) d = false)
       [top_edge_detection]
  /\ snd (main (test_world one_pixel top_edge_buffer) "yolov10cpp"
            ["yolov10n.onnx"; "bus.jpg"]%string)
     = Undefined.
Proof.
  assert (H1 : filterDetections top_edge_buffer (Float32.ratio 1 2) 640 640 1 1
               = Returns [top_edge_detection]) by (vm_compute; reflexivity).
  assert (H2 : Exists (fun d => label_fits (test_world one_pixel top_edge_buffer) d
                                = false) [top_edge_detection])
    by (apply Exists_cons_hd; vm_compute; reflexivity).
  assert (H3 : Z.of_nat (List.length (solid 0 51 255 (Z.to_nat (640 * 640))))
               = 3 * (640 * 640)) by (rewrite solid_length; lia).
  exact (conj H1 (conj H2
    (main_label_overflow (test_world one_pixel top_edge_buffer)
       "yolov10cpp"%string "yolov10n.onnx"%string "bus.jpg"%string tt
       (mkMat 640 640 (solid 0 51 255 (Z.to_nat (640 * 640)))) top_edge_buffer
       [top_edge_detection]
       eq_refl eq_refl eq_refl eq_refl H3 eq_refl H1 H2))).
Defined.
